(* ===== verification/_CoqProject ===== *)
-Q . S2P
Prelude.v
Content.v
UriEncode.v
Regex.v
Browser.v
Handlers.v
Effects.v
Markup.v
Cards.v
Page.v
