(* ===== verification/Prelude.v ===== *)
(** * A verification development of the i-am-smf portfolio page

    The repository is one Next.js client component, [src/app/page.tsx]:
    a static portfolio page.  Its parts, and how they interact:

    - Content data (lines 24-50 and 186-276): the TypeScript interfaces
      [ProjectItem], [EducationItem], [AchievementItem], [CertificateItem]
      and the four literal arrays built inside [Page].  Immutable.
    - Card components (lines 52-183): [ProjectCard], [EducationCard],
      [AchievementCard], [CertificateCard].  Each owns one [useState]
      flag [isHovered], set by [onMouseEnter] / [onMouseLeave], and renders
      a summary, an animated detail panel driven by the flag, and a link.
    - Action handlers: [handleWhatsAppClick] (lines 278-291), which tests
      [navigator.userAgent] against [/iPhone|iPad|iPod|Android/i], encodes
      a message with [encodeURIComponent] and calls [window.open]; the
      [mailto:] buttons (lines 320, 360); the two resume buttons (lines
      387-394, 401-408) that create, append, click and remove an anchor;
      the Discord and Instagram buttons (lines 514, 521).
    - Page composer ([Page], lines 293-536): the section tree, mounting
      the cards with the literal data and wiring the buttons' handlers.

    Files of the development (in dependency order):

    - [Prelude]: JavaScript strings as lists of UTF-16 code units
      ([jsstr], with [js] converting an ASCII literal), the exception
      kinds the modelled code can raise ([exn]), a result monad with its
      notation in [js_scope], bit-operation lemmas (UTF-8 octets and hex
      digits are built with [Z.land], [Z.lor], [Z.shiftr]), prefix and
      infix predicates on strings, the [portfolio] hint and [portfolio_rw] rewrite databases.
    - [Content]: the four item interfaces as Records (one Module each,
      since TypeScript lets them share field names) and the literal data.
    - [UriEncode]: ECMAScript [encodeURIComponent] (the spec's [Encode]
      with [CodePointAt] and the UTF-8 transformation) as the loop the
      spec writes, with an index that advances by the code-unit count;
      a reference decoder ([decodeURIComponent]); theorems: exact error
      characterisation (URIError iff a lone surrogate), output alphabet,
      length bounds, and the decode/encode round trip
      with injectivity.
    - [Regex]: the regular-expression literal [/iPhone|iPad|iPod|Android/i]
      and [RegExp.prototype.test] (ECMA-262 Matchers, [Canonicalize],
      [RegExpBuiltinExec] with [lastIndex]); theorems: the search returns
      the leftmost match, and [isMobile] holds exactly when the user agent
      contains one of the four words in any letter case, for any Unicode
      upper-case table.
    - [Browser]: the browser state the handlers touch (location,
      [window.open] log, downloads, DOM elements in a [gmap] by node id,
      [document.body]'s children, [navigator.userAgent]), the [DOM] state
      and error monad, the DOM operations with their [TypeError] and
      [NotFoundError] paths, and the well-formedness invariant [wf] that
      every operation preserves.
    - [Handlers]: every [onClick] of the page over [Browser]; theorems:
      the WhatsApp link on mobile and desktop user agents, with its
      encoded [text] parameter, the resume download (one download, body restored, no
      error even where clicks on detached anchors are ignored; n clicks
      give n downloads), and that no button throws or breaks [wf].
    - [Effects]: the buttons' contract after the spec's external
      interfaces: each click requests one [Effect] (open a URI in a new
      browsing context, navigate the current one, or download a file),
      whose meaning on the observable [View] of the browser is
      [apply_effect]; theorem: the handlers refine the contract.  The
      [mailto:] buttons are a navigation of the current context, as the
      spec says; a browser hands the URI to the mail client.
    - [Markup]: React element trees ([Node]) with prop values, event
      handlers named by what they do, and the text content of a tree.
    - [Cards]: the four card components as functions of props and the
      [isHovered] flag, the [CardComponent] interface with its [CardLaws],
      the hover state machine driven by the rendered handlers; theorems,
      stated for the four cards: the flag follows the last pointer event,
      the flag changes only the animation targets (the detail text stays
      in the tree), the text and the element outline each card renders
      (what is never rendered included), and distinct row keys.
    - [Page]: the page composer.  [Page year st] is the section tree with
      the card instances expanded, for the hover flags [st] of the six
      mounted instances and the footer year; a click on any element runs
      the [onClick] handlers on its event path, innermost first, then the
      nearest link's navigation; [page_step] and [page_run] are the
      page's event loop over pointer events and clicks.  Theorems: what
      each element does when clicked (at most one action, and exactly the
      page's buttons and links), that any interleaving of events never
      throws, keeps the browser well formed and leaves each card hovered
      exactly when its last pointer event was an enter, that every click
      on the page performs at most one effect, from the literal list of
      the page's links, addresses and files, each of which some element
      performs, and the footer's text with the printed year reading back
      as the year.  A click on a [Button] nested in a [Link] follows the
      link, as browsers do for these anchors (the DOM standard would make
      the button the activation target; the page relies on the browsers'
      behaviour for its GitHub, LinkedIn, View Source and list-card
      links).

    Bounds and fuel: every loop of the ECMAScript algorithms (the
    [Encode] and [Decode] loops and [RegExpBuiltinExec]'s search over
    [lastIndex]) advances by at least one code unit per iteration, so its
    fuel is the input's length (plus one for the search, which also tries
    the end position); lemmas show that this fuel is enough and that
    any larger fuel gives the same result ([Encode_loop_ref],
    [exec_loop_spec]).  Integers are [Z]: the code
    units are kept within [0, 65536) by the hypothesis [code_unit], and
    UTF-8 octets are shown to lie in [0, 256).

    Not modelled: styling (class names are kept as strings; Tailwind
    breakpoints are not interpreted), the framer-motion animation timing
    (only its target values are kept), the UI kit and Next.js components
    (kept as element types; a [Link] is an anchor), [Image] loading,
    [new Date()] (the footer year is an input), URL resolution of [href]
    against the document's base URL, and the routes the list cards link
    to (they are not in the repository).
*)

From Stdlib Require Import ZArith List String Ascii Lia Bool.
Import ListNotations.

Declare Scope js_scope.
Delimit Scope js_scope with js.

(** ** JavaScript strings *)

(** A JavaScript string value is a sequence of UTF-16 code units. *)
Definition jsstr := list Z.

(** The code units of an ASCII literal. *)
Definition js (s : string) : jsstr :=
  map (fun a => Z.of_nat (nat_of_ascii a)) (list_ascii_of_string s).
Arguments js s%_string.

Definition jsstr_eqb (a b : jsstr) : bool :=
  if list_eq_dec Z.eq_dec a b then true else false.

(** [p] is a prefix of [s]. *)
Fixpoint prefixb (p s : jsstr) : bool :=
  match p, s with
  | [], _ => true
  | x :: p', y :: s' => (x =? y)%Z && prefixb p' s'
  | _ :: _, [] => false
  end.

(** ** Exceptions and the result monad *)

(** The exceptions the modelled code and the built-ins it calls can
    throw: [URIError] from [encodeURIComponent] on a lone surrogate,
    [NotFoundError] (a [DOMException]) from [removeChild] of a node that
    is not a child, [TypeError] from a DOM method given a value that is
    not a node. *)
Inductive exn := URIError | NotFoundError | TypeError.

Inductive result (A : Type) : Type :=
| Ok (a : A)
| Throw (e : exn).
Arguments Ok {A} a.
Arguments Throw {A} e.

Definition res_bind {A B} (m : result A) (f : A -> result B) : result B :=
  match m with
  | Ok a => f a
  | Throw e => Throw e
  end.

Definition res_map {A B} (f : A -> B) (m : result A) : result B :=
  match m with
  | Ok a => Ok (f a)
  | Throw e => Throw e
  end.

Notation "x <- m ;; k" := (res_bind m (fun x => k))
  (at level 100, m at next level, right associativity) : js_scope.
Notation "f <$> m" := (res_map f m) (at level 61, left associativity) : js_scope.

Definition is_ok {A} (r : result A) : bool :=
  match r with Ok _ => true | Throw _ => false end.

(** ** Tactics and hints *)

Create HintDb portfolio discriminated.
Create Rewrite HintDb portfolio_rw.

Ltac inv H := inversion H; subst; clear H.

(** Case on a [res_bind] or a [res_map] whose scrutinee is stuck. *)
Ltac destruct_result :=
  match goal with
  | |- context [res_bind ?m _] => let E := fresh "E" in destruct m eqn:E
  | |- context [res_map _ ?m] => let E := fresh "E" in destruct m eqn:E
  | H : context [res_bind ?m _] |- _ => let E := fresh "E" in destruct m eqn:E
  | H : context [res_map _ ?m] |- _ => let E := fresh "E" in destruct m eqn:E
  end.

(** ** Generic lemmas *)

Lemma res_bind_Ok {A B} (a : A) (f : A -> result B) : res_bind (Ok a) f = f a.
Proof. reflexivity. Qed.

Lemma res_bind_Ok_inv {A B} (m : result A) (f : A -> result B) b :
  res_bind m f = Ok b -> exists a, m = Ok a /\ f a = Ok b.
Proof. destruct m; simpl; [eauto | discriminate]. Qed.

Lemma res_map_Ok_inv {A B} (f : A -> B) m b :
  res_map f m = Ok b -> exists a, m = Ok a /\ b = f a.
Proof. destruct m; simpl; intros H; [inv H; eauto | discriminate]. Qed.

Lemma res_map_res_map {A B C} (f : A -> B) (g : B -> C) m :
  res_map g (res_map f m) = res_map (fun x => g (f x)) m.
Proof. destruct m; reflexivity. Qed.

Lemma is_ok_res_map {A B} (f : A -> B) m : is_ok (res_map f m) = is_ok m.
Proof. destruct m; reflexivity. Qed.

#[export] Hint Rewrite @res_bind_Ok @res_map_res_map @is_ok_res_map : portfolio_rw.

Lemma js_app s1 s2 : js (s1 ++ s2) = js s1 ++ js s2.
Proof.
  induction s1 as [|a s1 IH]; simpl; [reflexivity|].
  unfold js in *; simpl. now rewrite IH.
Qed.

Lemma js_length s : List.length (js s) = String.length s.
Proof.
  induction s as [|a s IH]; simpl; [reflexivity|].
  unfold js in *; simpl. now rewrite IH.
Qed.

Lemma js_ascii s : Forall (fun c => (0 <= c < 256)%Z) (js s).
Proof.
  induction s as [|a s IH]; constructor; [|exact IH].
  pose proof (nat_ascii_bounded a). lia.
Qed.

Lemma prefixb_spec p s : prefixb p s = true <-> exists t, s = p ++ t.
Proof.
  revert s; induction p as [|x p IH]; intros [|y s]; simpl.
  - split; eauto.
  - split; eauto.
  - split; [discriminate | intros [t H]; discriminate].
  - rewrite andb_true_iff, Z.eqb_eq, IH. split.
    + intros [-> [t ->]]; eauto.
    + intros [t H]; inv H; eauto.
Qed.

Lemma prefixb_app p t : prefixb p (p ++ t) = true.
Proof. apply prefixb_spec; eauto. Qed.

#[export] Hint Resolve prefixb_app : portfolio.

(** ** Bit operations on octets *)

(** OR-ing a multiple of [2^k] with a value below [2^k] adds them: the
    way UTF-8 lead and continuation bytes are assembled. *)
Lemma lor_shiftl_add a b k :
  (0 <= k)%Z -> (0 <= b < 2 ^ k)%Z ->
  Z.lor (Z.shiftl a k) b = (a * 2 ^ k + b)%Z.
Proof.
  intros Hk Hb.
  assert (H0 : Z.land (Z.shiftl a k) b = 0%Z).
  { apply Z.bits_inj'; intros i Hi. rewrite Z.land_spec, Z.bits_0.
    destruct (Z.lt_ge_cases i k).
    - rewrite Z.shiftl_spec_low by lia. reflexivity.
    - rewrite <- (Z.mod_small b (2 ^ k)) by lia.
      rewrite Z.mod_pow2_bits_high by lia. apply andb_false_r. }
  rewrite <- Z.lxor_lor, <- Z.add_nocarry_lxor by exact H0.
  now rewrite Z.shiftl_mul_pow2.
Qed.


(** The same for an addend already written as a multiple of [2^k]:
    [0xC0 | x] is [0xC0 + x] when [x < 2^5]. *)
Lemma lor_add a b k :
  (0 <= k)%Z -> (a mod 2 ^ k = 0)%Z -> (0 <= b < 2 ^ k)%Z ->
  Z.lor a b = (a + b)%Z.
Proof.
  intros Hk Ha Hb.
  assert (Hp : (2 ^ k > 0)%Z) by (apply Z.lt_gt, Z.pow_pos_nonneg; lia).
  rewrite (Z.div_mod a (2 ^ k)) at 1 by lia. rewrite Ha, Z.add_0_r, Z.mul_comm.
  rewrite <- Z.shiftl_mul_pow2 by exact Hk.
  rewrite lor_shiftl_add by lia.
  rewrite (Z.div_mod a (2 ^ k)) at 2 by lia. lia.
Qed.

(** A mask [2^n - 1] keeps the low [n] bits. *)
Lemma land_mask a n m : m = Z.ones n -> (0 <= n)%Z -> Z.land a m = (a mod 2 ^ n)%Z.
Proof. intros -> Hn. now apply Z.land_ones. Qed.

(** Evaluate the powers of two with a literal exponent; [pow_lia] then
    turns constant divisions into equations and calls [lia]. *)
Ltac eval_pow2 :=
  repeat match goal with
  | |- context [(2 ^ ?n)%Z] =>
      let v := eval compute in (2 ^ n)%Z in change (2 ^ n)%Z with v
  | H : context [(2 ^ ?n)%Z] |- _ =>
      let v := eval compute in (2 ^ n)%Z in change (2 ^ n)%Z with v in H
  end.

Ltac pow_lia := eval_pow2; Z.div_mod_to_equations; lia.

(** Turn the shifts, masks and ORs of an octet computation into
    arithmetic with constant divisors, which [lia] decides. *)
Ltac bits_to_arith :=
  repeat match goal with
  | |- context [Z.shiftr ?a ?n] => rewrite (Z.shiftr_div_pow2 a n) by lia
  | |- context [Z.shiftl ?a ?n] => rewrite (Z.shiftl_mul_pow2 a n) by lia
  | |- context [Z.land ?a 63] => rewrite (land_mask a 6 63 eq_refl) by lia
  | |- context [Z.land ?a 31] => rewrite (land_mask a 5 31 eq_refl) by lia
  | |- context [Z.land ?a 15] => rewrite (land_mask a 4 15 eq_refl) by lia
  | |- context [Z.land ?a 7] => rewrite (land_mask a 3 7 eq_refl) by lia
  | |- context [Z.lor ?a ?b] =>
      first [ rewrite (lor_add a b 6) by pow_lia | rewrite (lor_add a b 12) by pow_lia
            | rewrite (lor_add a b 18) by pow_lia | rewrite (lor_add a b 5) by pow_lia
            | rewrite (lor_add a b 4) by pow_lia | rewrite (lor_add a b 3) by pow_lia ]
  end; eval_pow2.

(** Decide the integer comparisons of the goal whose outcome follows
    from the hypotheses by [pow_lia]. *)
Ltac simpl_cmp :=
  repeat match goal with
  | |- context [(?a <? ?b)%Z] =>
      first [ rewrite (proj2 (Z.ltb_lt a b)) by pow_lia
            | rewrite (proj2 (Z.ltb_ge a b)) by pow_lia ]
  | |- context [(?a <=? ?b)%Z] =>
      first [ rewrite (proj2 (Z.leb_le a b)) by pow_lia
            | rewrite (proj2 (Z.leb_gt a b)) by pow_lia ]
  | |- context [(?a =? ?b)%Z] =>
      first [ rewrite (proj2 (Z.eqb_eq a b)) by pow_lia
            | rewrite (proj2 (Z.eqb_neq a b)) by pow_lia ]
  end.

(** ** Code units and an induction on length *)

(** A UTF-16 code unit is a 16-bit value. *)
Definition code_unit (c : Z) : Prop := (0 <= c < 65536)%Z.

Lemma js_code_units s : Forall code_unit (js s).
Proof.
  eapply Forall_impl; [|apply js_ascii]. unfold code_unit; simpl; lia.
Qed.

#[export] Hint Resolve js_code_units : portfolio.

(** Induction on the length of a list, for the loops that consume one
    or two code units per step. *)
Lemma list_len_ind {A} (P : list A -> Prop) :
  (forall l, (forall l', (List.length l' < List.length l)%nat -> P l') -> P l) ->
  forall l, P l.
Proof.
  intros H l. remember (List.length l) as n eqn:Hn. revert l Hn.
  induction n as [n IH] using lt_wf_ind. intros l ->.
  apply H. intros l' Hl'. eapply IH; eauto.
Qed.

Lemma skipn_nth_error_cons {A} (l : list A) n x :
  nth_error l n = Some x -> skipn n l = x :: skipn (S n) l.
Proof.
  revert n; induction l as [|y l IH]; intros [|n] H; simpl in *; try discriminate.
  - now inv H.
  - now apply IH.
Qed.

Lemma skipn_nth_error_None {A} (l : list A) n :
  nth_error l n = None -> skipn n l = [].
Proof.
  intros H. apply nth_error_None in H. now apply skipn_all2.
Qed.

(** [Array.prototype.map] with the index argument: [f] gets the index
    (counted from [i]) and the element. *)
Fixpoint mapi_from {A B} (i : nat) (f : nat -> A -> B) (l : list A) : list B :=
  match l with
  | [] => []
  | x :: l' => f i x :: mapi_from (S i) f l'
  end.

Definition mapi {A B} (f : nat -> A -> B) (l : list A) : list B := mapi_from 0 f l.

Lemma mapi_from_length {A B} i (f : nat -> A -> B) l :
  List.length (mapi_from i f l) = List.length l.
Proof. revert i; induction l as [|x l IH]; intros i; simpl; [reflexivity|]. now rewrite IH. Qed.

(** [mapi_from] is [map] over the list zipped with its indices. *)
Lemma mapi_from_combine {A B} i (f : nat -> A -> B) l :
  mapi_from i f l = map (fun '(k, x) => f k x) (combine (seq i (List.length l)) l).
Proof. revert i; induction l as [|x l IH]; intros i; simpl; [reflexivity|]. now rewrite IH. Qed.
