(* ===== verification/Content.v ===== *)
(** * Content data: the item interfaces and the literal arrays

    [src/app/page.tsx] lines 24-50 declare four TypeScript interfaces and
    lines 186-276 build one literal array of each inside [Page].  Each
    interface is a Record in a Module of its own (TypeScript interfaces
    may share field names such as [title]; Rocq projections may not).
    Optional fields ([date?] and the like) are [option jsstr].  Strings
    are UTF-16 code units: the en dash U+2013 of the date ranges is the
    code unit [8211]. *)

From Stdlib Require Import ZArith List String.
From S2P Require Import Prelude.
Import ListNotations.

Module Project.
Record ProjectItem := {
    title : jsstr;
    description : jsstr;
    details : jsstr;
    sourceUrl : jsstr
  }.
End Project.

Module Education.
Record EducationItem := {
    institution : jsstr;
    degree : jsstr;
    duration : jsstr
  }.
End Education.

Module Achievement.
Record AchievementItem := {
    title : jsstr;
    event : jsstr;
    date : jsstr
  }.
End Achievement.

Module Certificate.
Record CertificateItem := {
    title : jsstr;
    organization : jsstr;
    date : option jsstr;
    details : option jsstr;
    link : option jsstr;
    image : option jsstr
  }.
End Certificate.

Import Project Education Achievement Certificate.

(** The en dash of the date ranges. *)
Definition ndash : jsstr := [8211%Z].

Definition projectsData : list ProjectItem := [
  {| Project.title := js "AFK Monitoring System";
     Project.description := js "Developed a system to monitor idle time on a computer and shut it down if idle time exceeds the allowed limit.";
     Project.details := js "Implemented using Python with the pyautogui library for detecting user activity. Features include customizable idle time thresholds, warning notifications, and automatic shutdown procedures.";
     sourceUrl := js "https://github.com/i-am-smf/afk-monitering-sytem" |};
  {| Project.title := js "Secure Chat API";
     Project.description := js "Developed a Secure Chat API with end-to-end encryption and Blockchain-based authentication to ensure secure communication.";
     Project.details := js "The project involved translating design specifications into a fully functional system, integrating Fernet encryption for secure message transmission and smart contracts for automated user verification. Technologies: Python (Tkinter, Threading, Socket), Blockchain Authentication, Smart Contracts, Fernet Encryption. The implementation focused on code quality, efficiency, and maintainability, following best practices in software development. System Requirements: 4GB RAM, Windows (8/10/11), Linux, Ubuntu.";
     sourceUrl := js "https://github.com/i-am-smf/Secure-Chat-using-Blockchain" |};
  {| Project.title := js "Infinity Developer Discord Bot";
     Project.description := js "Developed a fully automated bot to manage guild channels, duties, and settings on Discord.";
     Project.details := js "Utilized discord.py library with advanced features like role management, custom commands, and integration with external APIs for enhanced functionality. Implements efficient caching and database management for scalability.";
     sourceUrl := js "https://github.com/infinity-developers/Infinity-Developer-Discord-Bot" |}
].

Definition educationData : list EducationItem := [
  {| institution := js "M.I.E.T. Engineering College";
     degree := js "B.E. Computer Science";
     duration := js "Jun 2020 " ++ ndash ++ js " Apr 2024" |};
  {| institution := js "Sairam Matric Hr. Sec. School";
     degree := js "12th Grade";
     duration := js "Jun 2019 " ++ ndash ++ js " Mar 2020" |}
].

Definition achievementsData : list AchievementItem := [
  {| Achievement.title := js "1st Place - Miniathon Event";
     event := js "Arcane 2K23 National Level Technical Symposium";
     Achievement.date := js "September 13, 2023" |};
  {| Achievement.title := js "1st Prize - Code Battle Event";
     event := js "Technoholix'23, National Level Technical Symposium";
     Achievement.date := js "February 17, 2023" |};
  {| Achievement.title := js "2nd Place - Zoom in Zoom out Event";
     event := js "Analytiixfest2k23 State Level Technical Symposium";
     Achievement.date := js "February 2, 2023" |};
  {| Achievement.title := js "3rd Place - TechVein Event";
     event := js "TechQuest'23, National Level Technical Symposium";
     Achievement.date := js "September 15, 2023" |}
].

Definition certificatesData : list CertificateItem := [
  {| Certificate.title := js ".NET using C# language";
     organization := js "Ameya Cloud";
     Certificate.date := Some (js "May 24, 2022 " ++ ndash ++ js " Jun 1, 2022");
     Certificate.details := Some (js "Learned to create applications using .NET with Microsoft Visual Studio.");
     link := Some (js "https://ameyacloud.com");
     image := Some (js "https://hebbkx1anhila5yf.public.blob.vercel-storage.com/1739869980871.jpg-YL0g3FWZTgDJSYXYOiXvjZSS20wjCu.jpeg") |};
  {| Certificate.title := js "RDBMS using MySQL";
     organization := js "GFS India";
     Certificate.date := Some (js "Sep 19, 2022 " ++ ndash ++ js " Sep 26, 2022");
     Certificate.details := Some (js "Gained hands-on experience with SQL queries.");
     link := Some (js "https://gfsindia.com");
     image := Some (js "https://hebbkx1anhila5yf.public.blob.vercel-storage.com/1739869980885.jpg-zcQSO1Q3nHVkI7BWhLuYjXurBff2KI.jpeg") |};
  {| Certificate.title := js "DevOps on AWS";
     organization := js "M.I.E.T. Engineering College";
     Certificate.date := Some (js "Mar 20, 2023 " ++ ndash ++ js " Mar 29, 2023");
     Certificate.details := Some (js "Practiced various Git commands and DevOps tools on AWS.");
     link := Some (js "https://miet.edu");
     image := Some (js "https://hebbkx1anhila5yf.public.blob.vercel-storage.com/1739869980877.jpg-1OUDvkvP01abfrC8Af9vKKSLDFFM9b.jpeg") |}
].
