(* ===== verification/UriEncode.v ===== *)
(** * [encodeURIComponent] and its inverse

    [handleWhatsAppClick] (src/app/page.tsx lines 287-288) builds the
    [text=] parameter of its URL with [encodeURIComponent(message)].
    This file models that built-in as ECMA-262 writes it (section
    "Encode (string, extraUnescaped)"): a loop over the code units with
    an index [k], which copies a code unit of the unescaped set and
    otherwise reads a code point with [CodePointAt], throws a [URIError]
    on an unpaired surrogate, and appends the UTF-8 octets of the code
    point as [%XY] escapes.  The index is represented by the suffix of
    the string still to read; the loop's fuel is the string's length.

    [Decode] models [decodeURIComponent] (ECMA-262 "Decode (string,
    preserveEscapeSet)" with an empty set), the receiving side's view of
    the parameter; it is the reference against which the encoder's round
    trip is stated. *)

From Stdlib Require Import ZArith List String Lia Bool.
From S2P Require Import Prelude.
Import ListNotations.
Local Open Scope Z_scope.
Local Open Scope js_scope.

Module UriEncode.

(** ** Character classes *)

(** The ASCII word characters [A-Z a-z 0-9 _]. *)
Definition is_ascii_word_char (c : Z) : bool :=
  ((65 <=? c) && (c <=? 90)) || ((97 <=? c) && (c <=? 122))
  || ((48 <=? c) && (c <=? 57)) || (c =? 95).

Definition uri_mark : jsstr := js "-.!~*'()".

(** [alwaysUnescaped]; [encodeURIComponent] adds no extra characters. *)
Definition unescapedSet (c : Z) : bool :=
  is_ascii_word_char c || existsb (Z.eqb c) uri_mark.

Definition is_leading_surrogate (c : Z) : bool := (0xD800 <=? c) && (c <=? 0xDBFF).
Definition is_trailing_surrogate (c : Z) : bool := (0xDC00 <=? c) && (c <=? 0xDFFF).

Definition UTF16SurrogatePairToCodePoint (lead trail : Z) : Z :=
  (lead - 0xD800) * 0x400 + (trail - 0xDC00) + 0x10000.

Record CodePointRecord := {
  CodePoint : Z;
  CodeUnitCount : nat;
  IsUnpairedSurrogate : bool
}.

(** [CodePointAt(string, position)], the string given from [position]
    on: its first code unit and the rest. *)
Definition CodePointAt (first : Z) (rest : jsstr) : CodePointRecord :=
  if negb (is_leading_surrogate first) && negb (is_trailing_surrogate first) then
    {| CodePoint := first; CodeUnitCount := 1; IsUnpairedSurrogate := false |}
  else if is_trailing_surrogate first then
    {| CodePoint := first; CodeUnitCount := 1; IsUnpairedSurrogate := true |}
  else
    match rest with
    | [] => {| CodePoint := first; CodeUnitCount := 1; IsUnpairedSurrogate := true |}
    | second :: _ =>
        if negb (is_trailing_surrogate second) then
          {| CodePoint := first; CodeUnitCount := 1; IsUnpairedSurrogate := true |}
        else
          {| CodePoint := UTF16SurrogatePairToCodePoint first second;
             CodeUnitCount := 2; IsUnpairedSurrogate := false |}
    end.

(** ** UTF-8 and percent escapes *)

(** The UTF-8 transformation of a code point (Unicode Table 3-6). *)
Definition UTF8 (cp : Z) : list Z :=
  if cp <? 0x80 then [cp]
  else if cp <? 0x800 then
    [Z.lor 0xC0 (Z.shiftr cp 6); Z.lor 0x80 (Z.land cp 0x3F)]
  else if cp <? 0x10000 then
    [Z.lor 0xE0 (Z.shiftr cp 12); Z.lor 0x80 (Z.land (Z.shiftr cp 6) 0x3F);
     Z.lor 0x80 (Z.land cp 0x3F)]
  else
    [Z.lor 0xF0 (Z.shiftr cp 18); Z.lor 0x80 (Z.land (Z.shiftr cp 12) 0x3F);
     Z.lor 0x80 (Z.land (Z.shiftr cp 6) 0x3F); Z.lor 0x80 (Z.land cp 0x3F)].

(** An uppercase hexadecimal digit. *)
Definition hex_digit (d : Z) : Z := if d <? 10 then 48 + d else 55 + d.

(** ["%"] followed by the octet as two uppercase hexadecimal digits. *)
Definition percent_encode (octet : Z) : jsstr :=
  [37; hex_digit (Z.shiftr octet 4); hex_digit (Z.land octet 0xF)].

Definition escape_octets (octets : list Z) : jsstr := flat_map percent_encode octets.

(** ** The Encode loop *)

(** One iteration per code point; [s] is the string from index [k] on
    and [R] the result so far. *)
Fixpoint Encode_loop (fuel : nat) (s : jsstr) (R : jsstr) : result jsstr :=
  match fuel with
  | O => Ok R
  | S fuel' =>
      match s with
      | [] => Ok R
      | C :: rest =>
          if unescapedSet C then Encode_loop fuel' rest (R ++ [C])
          else
            let cp := CodePointAt C rest in
            if IsUnpairedSurrogate cp then Throw URIError
            else Encode_loop fuel' (skipn (CodeUnitCount cp) s)
                   (R ++ escape_octets (UTF8 (CodePoint cp)))
      end
  end.

Definition encodeURIComponent (s : jsstr) : result jsstr :=
  Encode_loop (List.length s) s [].

(** ** A structural reference *)

(** The same result, one code point per step, by structural recursion:
    the form the proofs work with. *)
Fixpoint encode_ref (s : jsstr) : result jsstr :=
  match s with
  | [] => Ok []
  | c :: rest =>
      if unescapedSet c then app [c] <$> encode_ref rest
      else if is_leading_surrogate c then
        match rest with
        | c2 :: rest2 =>
            if is_trailing_surrogate c2 then
              app (escape_octets (UTF8 (UTF16SurrogatePairToCodePoint c c2)))
                <$> encode_ref rest2
            else Throw URIError
        | [] => Throw URIError
        end
      else if is_trailing_surrogate c then Throw URIError
      else app (escape_octets (UTF8 c)) <$> encode_ref rest
  end.

(** Well-formed UTF-16 (Unicode D91): a sequence of non-surrogate code
    units and surrogate pairs. *)
Inductive wf_utf16 : jsstr -> Prop :=
| wf_nil : wf_utf16 []
| wf_bmp c s :
    is_leading_surrogate c = false -> is_trailing_surrogate c = false ->
    wf_utf16 s -> wf_utf16 (c :: s)
| wf_pair h l s :
    is_leading_surrogate h = true -> is_trailing_surrogate l = true ->
    wf_utf16 s -> wf_utf16 (h :: l :: s).

(** ** Lemmas *)

Lemma unescaped_not_surrogate c :
  unescapedSet c = true ->
  is_leading_surrogate c = false /\ is_trailing_surrogate c = false.
Proof.
  unfold unescapedSet, is_ascii_word_char, is_leading_surrogate,
    is_trailing_surrogate, uri_mark; simpl.
  intros H. repeat rewrite ?orb_true_iff, ?andb_true_iff, ?Z.leb_le, ?Z.eqb_eq in H.
  split; apply andb_false_iff; rewrite !Z.leb_gt; lia.
Qed.

Lemma leading_not_trailing c :
  is_leading_surrogate c = true -> is_trailing_surrogate c = false.
Proof.
  unfold is_leading_surrogate, is_trailing_surrogate.
  rewrite andb_true_iff, !Z.leb_le, andb_false_iff, !Z.leb_gt. lia.
Qed.

Lemma Encode_loop_ref fuel s R :
  (List.length s <= fuel)%nat ->
  Encode_loop fuel s R = app R <$> encode_ref s.
Proof.
  revert s R; induction fuel as [|fuel IH]; intros s R Hlen.
  - destruct s; simpl in *; [now rewrite app_nil_r | lia].
  - destruct s as [|c rest]; simpl; [now rewrite app_nil_r|]. simpl in Hlen.
    destruct (unescapedSet c) eqn:Hu.
    { rewrite IH by lia. destruct (encode_ref rest); simpl; now rewrite <- ?app_assoc. }
    unfold CodePointAt.
    destruct (is_leading_surrogate c) eqn:Hl, (is_trailing_surrogate c) eqn:Ht;
      simpl; try reflexivity.
    + rewrite leading_not_trailing in Ht by exact Hl. discriminate.
    + destruct rest as [|c2 rest2]; simpl; [reflexivity|].
      destruct (is_trailing_surrogate c2); simpl; [|reflexivity].
      simpl in Hlen. rewrite IH by lia.
      destruct (encode_ref rest2); simpl; now rewrite <- ?app_assoc.
    + rewrite IH by lia. destruct (encode_ref rest); simpl; now rewrite <- ?app_assoc.
Qed.

Lemma surrogate_not_unescaped c :
  is_leading_surrogate c = true \/ is_trailing_surrogate c = true ->
  unescapedSet c = false.
Proof.
  intros H. destruct (unescapedSet c) eqn:Hu; [|reflexivity].
  apply unescaped_not_surrogate in Hu. destruct Hu as [H1 H2].
  rewrite H1, H2 in H. now destruct H.
Qed.

(** The UTF-8 octets of a code point are bytes. *)
Lemma UTF8_range cp :
  0 <= cp < 0x110000 -> Forall (fun b => 0 <= b < 256) (UTF8 cp).
Proof.
  intros Hcp. unfold UTF8.
  destruct (Z.ltb_spec cp 0x80); [repeat constructor; lia|].
  destruct (Z.ltb_spec cp 0x800).
  { repeat constructor; bits_to_arith; pow_lia. }
  destruct (Z.ltb_spec cp 0x10000); repeat constructor; bits_to_arith; pow_lia.
Qed.

Lemma UTF8_length cp :
  (1 <= List.length (UTF8 cp) <= 4)%nat /\
  (cp < 0x10000 -> (List.length (UTF8 cp) <= 3)%nat).
Proof.
  unfold UTF8.
  destruct (cp <? 0x80), (cp <? 0x800), (cp <? 0x10000) eqn:E; simpl;
    split; try lia; intros H; apply Z.ltb_ge in E; lia.
Qed.

Lemma length_escape_octets l : List.length (escape_octets l) = (3 * List.length l)%nat.
Proof. induction l as [|b l IH]; simpl; [reflexivity|]. rewrite IH. lia. Qed.

Definition is_upper_hex_digit (c : Z) : bool :=
  ((48 <=? c) && (c <=? 57)) || ((65 <=? c) && (c <=? 70)).

(** The characters an [encodeURIComponent] result can contain. *)
Definition uri_component_char (c : Z) : bool :=
  unescapedSet c || (c =? 37) || is_upper_hex_digit c.

Lemma hex_digit_upper d : 0 <= d < 16 -> is_upper_hex_digit (hex_digit d) = true.
Proof.
  intros Hd. unfold is_upper_hex_digit, hex_digit.
  destruct (Z.ltb_spec d 10); rewrite orb_true_iff, !andb_true_iff, !Z.leb_le; lia.
Qed.

Lemma escape_octets_chars l :
  Forall (fun b => 0 <= b < 256) l ->
  Forall (fun c => uri_component_char c = true) (escape_octets l).
Proof.
  induction 1 as [|b l Hb _ IH]; simpl; [constructor|].
  unfold uri_component_char.
  repeat constructor; [| | exact IH];
    rewrite hex_digit_upper, orb_true_r by (bits_to_arith; pow_lia); reflexivity.
Qed.

(** The three ways one step of the encoder succeeds. *)
Lemma encode_ref_cons_Ok c rest r :
  encode_ref (c :: rest) = Ok r ->
  (unescapedSet c = true /\
     exists r', encode_ref rest = Ok r' /\ r = c :: r')
  \/ (unescapedSet c = false /\ is_leading_surrogate c = false /\
      is_trailing_surrogate c = false /\
      exists r', encode_ref rest = Ok r' /\ r = escape_octets (UTF8 c) ++ r')
  \/ (exists c2 rest2, rest = c2 :: rest2 /\ unescapedSet c = false /\
      is_leading_surrogate c = true /\ is_trailing_surrogate c2 = true /\
      exists r', encode_ref rest2 = Ok r' /\
        r = escape_octets (UTF8 (UTF16SurrogatePairToCodePoint c c2)) ++ r').
Proof.
  simpl. intros H.
  destruct (unescapedSet c) eqn:Hu.
  { apply res_map_Ok_inv in H. left; eauto. }
  destruct (is_leading_surrogate c) eqn:Hl.
  - destruct rest as [|c2 rest2]; [discriminate|].
    destruct (is_trailing_surrogate c2) eqn:Ht; [|discriminate].
    apply res_map_Ok_inv in H. right; right; eauto 10.
  - destruct (is_trailing_surrogate c) eqn:Ht; [discriminate|].
    apply res_map_Ok_inv in H. right; left; eauto 10.
Qed.

Lemma pair_code_point_range h l :
  is_leading_surrogate h = true -> is_trailing_surrogate l = true ->
  0x10000 <= UTF16SurrogatePairToCodePoint h l < 0x110000.
Proof.
  unfold is_leading_surrogate, is_trailing_surrogate, UTF16SurrogatePairToCodePoint.
  rewrite !andb_true_iff, !Z.leb_le. lia.
Qed.

(** ** Theorems on the encoder *)

(** The ECMA-262 loop, run with the string's length as fuel, computes
    the structural encoder. *)
Lemma encodeURIComponent_ref s : encodeURIComponent s = encode_ref s.
Proof.
  unfold encodeURIComponent. rewrite Encode_loop_ref by lia.
  destruct (encode_ref s); reflexivity.
Qed.

Lemma encode_ok_wf s : is_ok (encode_ref s) = true -> wf_utf16 s.
Proof.
  induction s as [[|c rest] IH] using list_len_ind; intros H; [constructor|].
  destruct (encode_ref (c :: rest)) as [r|] eqn:E; [|discriminate].
  apply encode_ref_cons_Ok in E.
  destruct E as [[Hu [r' [E _]]] | [[_ [Hl [Ht [r' [E _]]]]] |
                 [c2 [rest2 [-> [_ [Hl [Ht [r' [E _]]]]]]]]]].
  - destruct (unescaped_not_surrogate c Hu).
    constructor; auto. apply IH; [simpl; lia | now rewrite E].
  - constructor; auto. apply IH; [simpl; lia | now rewrite E].
  - apply wf_pair; auto. apply IH; [simpl; lia | now rewrite E].
Qed.

Lemma wf_encode_ok s : wf_utf16 s -> is_ok (encode_ref s) = true.
Proof.
  induction 1 as [|c s Hl Ht _ IH|h l s Hl Ht _ IH]; simpl; [reflexivity| |].
  - destruct (unescapedSet c); rewrite ?Hl, ?Ht, is_ok_res_map; exact IH.
  - rewrite surrogate_not_unescaped by auto. rewrite Hl, Ht, is_ok_res_map. exact IH.
Qed.

(** C14: [encodeURIComponent] throws exactly on the strings that are not
    well-formed UTF-16, i.e. that hold an unpaired surrogate. *)
Theorem encodeURIComponent_ok_iff s :
  is_ok (encodeURIComponent s) = true <-> wf_utf16 s.
Proof.
  rewrite encodeURIComponent_ref. split; [apply encode_ok_wf | apply wf_encode_ok].
Qed.

(** C17: Every code unit of an [encodeURIComponent] result is an
    unreserved character, ["%"] or an uppercase hexadecimal digit. *)
Theorem encodeURIComponent_alphabet s r :
  Forall code_unit s -> encodeURIComponent s = Ok r ->
  Forall (fun c => uri_component_char c = true) r.
Proof.
  rewrite encodeURIComponent_ref. revert r.
  induction s as [[|c rest] IH] using list_len_ind; intros r Hs E.
  { inv E. constructor. }
  inv Hs. apply encode_ref_cons_Ok in E.
  destruct E as [[Hu [r' [E ->]]] | [[_ [Hl [Ht [r' [E ->]]]]] |
                 [c2 [rest2 [-> [_ [Hl [Ht [r' [E ->]]]]]]]]]].
  - constructor; [unfold uri_component_char; now rewrite Hu|].
    eapply IH; eauto; simpl; lia.
  - apply Forall_app; split.
    + apply escape_octets_chars, UTF8_range. unfold code_unit in *. lia.
    + eapply IH; eauto; simpl; lia.
  - apply Forall_app; split.
    + apply escape_octets_chars, UTF8_range.
      pose proof (pair_code_point_range c c2 Hl Ht). lia.
    + match goal with H : Forall code_unit (c2 :: rest2) |- _ => inv H end.
      eapply IH; eauto; simpl; lia.
Qed.

(** C18: Bounds: the result is at least as long as the input and at most
    nine times as long (three escaped octets per code unit). *)
Theorem encodeURIComponent_length s r :
  Forall code_unit s -> encodeURIComponent s = Ok r ->
  (List.length s <= List.length r <= 9 * List.length s)%nat.
Proof.
  rewrite encodeURIComponent_ref. revert r.
  induction s as [[|c rest] IH] using list_len_ind; intros r Hs E.
  { inv E. simpl. lia. }
  inv Hs. apply encode_ref_cons_Ok in E.
  destruct E as [[Hu [r' [E ->]]] | [[_ [Hl [Ht [r' [E ->]]]]] |
                 [c2 [rest2 [-> [_ [Hl [Ht [r' [E ->]]]]]]]]]].
  - specialize (IH rest ltac:(simpl; lia) r' ltac:(assumption) E). simpl. lia.
  - specialize (IH rest ltac:(simpl; lia) r' ltac:(assumption) E).
    rewrite length_app, length_escape_octets. simpl.
    destruct (UTF8_length c) as [Hlo Hhi]. unfold code_unit in *.
    specialize (Hhi ltac:(lia)). lia.
  - match goal with H : Forall code_unit (c2 :: rest2) |- _ => inv H end.
    specialize (IH rest2 ltac:(simpl; lia) r' ltac:(assumption) E).
    rewrite length_app, length_escape_octets. simpl.
    destruct (UTF8_length (UTF16SurrogatePairToCodePoint c c2)). lia.
Qed.

(** ** The decoder *)

Definition hex_value (c : Z) : option Z :=
  if (48 <=? c) && (c <=? 57) then Some (c - 48)
  else if (65 <=? c) && (c <=? 70) then Some (c - 55)
  else if (97 <=? c) && (c <=? 102) then Some (c - 87)
  else None.

(** [ParseHexOctet(string, position)], the string given from
    [position] on; [None] also when fewer than two code units remain. *)
Definition ParseHexOctet (s : jsstr) : option Z :=
  match s with
  | h :: l :: _ =>
      match hex_value h, hex_value l with
      | Some a, Some b => Some (a * 16 + b)
      | _, _ => None
      end
  | _ => None
  end.

(** The number of leading 1 bits of an octet; every count above 4 is
    reported as 5, since Decode rejects them alike. *)
Definition leading_ones (b : Z) : nat :=
  if b <? 0x80 then 0 else if b <? 0xC0 then 1 else if b <? 0xE0 then 2
  else if b <? 0xF0 then 3 else if b <? 0xF8 then 4 else 5.

(** Read [j] further ["%XY"] escapes. *)
Fixpoint read_continuations (j : nat) (s : jsstr) : option (list Z * jsstr) :=
  match j with
  | O => Some ([], s)
  | S j' =>
      match s with
      | c :: t =>
          if c =? 37 then
            match ParseHexOctet t with
            | Some b =>
                match read_continuations j' (skipn 2 t) with
                | Some (bs, r) => Some (b :: bs, r)
                | None => None
                end
            | None => None
            end
          else None
      | [] => None
      end
  end.

Definition is_continuation (b : Z) : bool := Z.shiftr b 6 =? 2.

(** The code point of a valid UTF-8 sequence of two to four octets whose
    lead octet has the right number of leading 1 bits; [None] for an
    invalid sequence (bad continuation, overlong form, surrogate, or
    beyond U+10FFFF). *)
Definition utf8_decode (octets : list Z) : option Z :=
  match octets with
  | [b1; b2] =>
      if is_continuation b2 then
        let cp := Z.lor (Z.shiftl (Z.land b1 0x1F) 6) (Z.land b2 0x3F) in
        if 0x80 <=? cp then Some cp else None
      else None
  | [b1; b2; b3] =>
      if is_continuation b2 && is_continuation b3 then
        let cp := Z.lor (Z.lor (Z.shiftl (Z.land b1 0xF) 12) (Z.shiftl (Z.land b2 0x3F) 6))
                        (Z.land b3 0x3F) in
        if (0x800 <=? cp) && negb ((0xD800 <=? cp) && (cp <=? 0xDFFF)) then Some cp
        else None
      else None
  | [b1; b2; b3; b4] =>
      if is_continuation b2 && is_continuation b3 && is_continuation b4 then
        let cp := Z.lor (Z.lor (Z.lor (Z.shiftl (Z.land b1 0x7) 18)
                                      (Z.shiftl (Z.land b2 0x3F) 12))
                               (Z.shiftl (Z.land b3 0x3F) 6))
                        (Z.land b4 0x3F) in
        if (0x10000 <=? cp) && (cp <=? 0x10FFFF) then Some cp else None
      else None
  | _ => None
  end.

Definition UTF16EncodeCodePoint (cp : Z) : jsstr :=
  if cp <=? 0xFFFF then [cp]
  else [(cp - 0x10000) / 0x400 + 0xD800; (cp - 0x10000) mod 0x400 + 0xDC00].

(** The Decode loop with an empty [preserveEscapeSet]. *)
Fixpoint Decode_loop (fuel : nat) (s : jsstr) (R : jsstr) : result jsstr :=
  match fuel with
  | O => Ok R
  | S fuel' =>
      match s with
      | [] => Ok R
      | C :: rest =>
          if negb (C =? 37) then Decode_loop fuel' rest (R ++ [C])
          else
            match ParseHexOctet rest with
            | None => Throw URIError
            | Some B =>
                match leading_ones B with
                | O => Decode_loop fuel' (skipn 2 rest) (R ++ [B])
                | n =>
                    if (n =? 1)%nat || (4 <? n)%nat then Throw URIError
                    else
                      match read_continuations (n - 1) (skipn 2 rest) with
                      | None => Throw URIError
                      | Some (conts, rest') =>
                          match utf8_decode (B :: conts) with
                          | None => Throw URIError
                          | Some V => Decode_loop fuel' rest' (R ++ UTF16EncodeCodePoint V)
                          end
                      end
                end
            end
      end
  end.

Definition decodeURIComponent (s : jsstr) : result jsstr :=
  Decode_loop (List.length s) s [].

(** ** Round trip *)

Lemma UTF8_1 cp : 0 <= cp < 0x80 -> UTF8 cp = [cp].
Proof. intros H. unfold UTF8. simpl_cmp. reflexivity. Qed.

Lemma UTF8_2 cp : 0x80 <= cp < 0x800 ->
  UTF8 cp = [0xC0 + cp / 64; 0x80 + cp mod 64].
Proof. intros H. unfold UTF8. simpl_cmp. bits_to_arith. reflexivity. Qed.

Lemma UTF8_3 cp : 0x800 <= cp < 0x10000 ->
  UTF8 cp = [0xE0 + cp / 4096; 0x80 + cp / 64 mod 64; 0x80 + cp mod 64].
Proof. intros H. unfold UTF8. simpl_cmp. bits_to_arith. reflexivity. Qed.

Lemma UTF8_4 cp : 0x10000 <= cp < 0x110000 ->
  UTF8 cp = [0xF0 + cp / 262144; 0x80 + cp / 4096 mod 64; 0x80 + cp / 64 mod 64;
             0x80 + cp mod 64].
Proof. intros H. unfold UTF8. simpl_cmp. bits_to_arith. reflexivity. Qed.

Lemma hex_value_digit d : 0 <= d < 16 -> hex_value (hex_digit d) = Some d.
Proof.
  intros Hd. unfold hex_value, hex_digit.
  destruct (Z.ltb_spec d 10); simpl_cmp; cbn [andb]; f_equal; lia.
Qed.

Lemma ParseHexOctet_encode b rest :
  0 <= b < 256 ->
  ParseHexOctet (hex_digit (Z.shiftr b 4) :: hex_digit (Z.land b 0xF) :: rest) = Some b.
Proof.
  intros Hb. simpl.
  rewrite !hex_value_digit by (bits_to_arith; pow_lia).
  f_equal. bits_to_arith. pow_lia.
Qed.

Lemma read_continuations_escape conts rest :
  Forall (fun b => 0 <= b < 256) conts ->
  read_continuations (List.length conts) (escape_octets conts ++ rest) = Some (conts, rest).
Proof.
  induction 1 as [|b conts Hb _ IH]; [reflexivity|].
  unfold escape_octets in *. cbn [List.length read_continuations flat_map].
  rewrite <- app_assoc. unfold percent_encode at 1. cbn [app].
  rewrite Z.eqb_refl, ParseHexOctet_encode by exact Hb. cbn [skipn]. now rewrite IH.
Qed.

(** Decoding one escaped multi-octet sequence. *)
Lemma Decode_loop_sequence fuel B conts rest R V :
  0 <= B < 256 -> Forall (fun b => 0 <= b < 256) conts ->
  leading_ones B = S (List.length conts) -> (1 <= List.length conts <= 3)%nat ->
  utf8_decode (B :: conts) = Some V ->
  Decode_loop (S fuel) (escape_octets (B :: conts) ++ rest) R =
  Decode_loop fuel rest (R ++ UTF16EncodeCodePoint V).
Proof.
  intros HB Hc Hn Hlen HV.
  change (escape_octets (B :: conts) ++ rest)
    with (37 :: hex_digit (Z.shiftr B 4) :: hex_digit (Z.land B 15)
             :: (escape_octets conts ++ rest)).
  cbn [Decode_loop]. rewrite Z.eqb_refl. cbn [negb].
  rewrite ParseHexOctet_encode by exact HB. rewrite Hn.
  replace ((S (List.length conts) =? 1)%nat || (4 <? S (List.length conts))%nat) with false
    by (symmetry; apply orb_false_iff; rewrite Nat.eqb_neq, Nat.ltb_ge; lia).
  rewrite Nat.sub_succ, Nat.sub_0_r. cbn [skipn].
  rewrite read_continuations_escape by exact Hc. rewrite HV. reflexivity.
Qed.

Lemma utf8_decode_UTF8 cp :
  0x80 <= cp < 0x110000 -> (cp < 0xD800 \/ 0xDFFF < cp) ->
  utf8_decode (UTF8 cp) = Some cp.
Proof.
  intros H Hs.
  destruct (Z.ltb_spec cp 0x800);
    [|destruct (Z.ltb_spec cp 0x10000); [destruct Hs|]];
    [ rewrite UTF8_2 by lia | rewrite UTF8_3 by lia | rewrite UTF8_3 by lia
    | rewrite UTF8_4 by lia ];
    unfold utf8_decode, is_continuation; cbv zeta; bits_to_arith; simpl_cmp;
    cbn [andb negb]; f_equal; pow_lia.
Qed.

Lemma UTF16EncodeCodePoint_bmp c : 0 <= c <= 0xFFFF -> UTF16EncodeCodePoint c = [c].
Proof. intros H. unfold UTF16EncodeCodePoint. now simpl_cmp. Qed.

Lemma UTF16EncodeCodePoint_pair h l :
  is_leading_surrogate h = true -> is_trailing_surrogate l = true ->
  UTF16EncodeCodePoint (UTF16SurrogatePairToCodePoint h l) = [h; l].
Proof.
  intros Hh Hl. pose proof (pair_code_point_range h l Hh Hl).
  unfold is_leading_surrogate, is_trailing_surrogate in *.
  rewrite andb_true_iff, !Z.leb_le in Hh, Hl.
  unfold UTF16EncodeCodePoint. simpl_cmp.
  unfold UTF16SurrogatePairToCodePoint in *. f_equal; [|f_equal]; pow_lia.
Qed.

(** Decoding the escapes of one code point. *)
Lemma Decode_loop_code_point fuel cp rest R :
  0 <= cp < 0x110000 -> (cp < 0xD800 \/ 0xDFFF < cp) ->
  Decode_loop (S fuel) (escape_octets (UTF8 cp) ++ rest) R =
  Decode_loop fuel rest (R ++ UTF16EncodeCodePoint cp).
Proof.
  intros H Hs. destruct (Z.ltb_spec cp 0x80).
  - rewrite UTF8_1 by lia.
    change (escape_octets [cp] ++ rest)
      with (37 :: hex_digit (Z.shiftr cp 4) :: hex_digit (Z.land cp 15) :: rest).
    cbn [Decode_loop]. rewrite Z.eqb_refl. cbn [negb].
    rewrite ParseHexOctet_encode by lia.
    replace (leading_ones cp) with 0%nat by (unfold leading_ones; simpl_cmp; reflexivity).
    cbn [skipn]. rewrite UTF16EncodeCodePoint_bmp by lia. reflexivity.
  - pose proof (utf8_decode_UTF8 cp ltac:(lia) Hs) as HV.
    pose proof (UTF8_range cp ltac:(lia)) as Hr.
    assert (Hn : exists B conts, UTF8 cp = B :: conts /\
              leading_ones B = S (List.length conts) /\ (1 <= List.length conts <= 3)%nat).
    { assert (cp < 0x800 \/ 0x800 <= cp < 0x10000 \/ 0x10000 <= cp) as Hc by lia.
      destruct Hc as [Hc|[Hc|Hc]];
        [ rewrite UTF8_2 by lia | rewrite UTF8_3 by lia | rewrite UTF8_4 by lia ];
        do 2 eexists; (split; [reflexivity|]);
        unfold leading_ones; simpl_cmp; cbn [List.length]; (split; [reflexivity | lia]). }
    destruct Hn as [B [conts [E [Hn Hlen]]]]. rewrite E in *. inv Hr.
    now apply Decode_loop_sequence.
Qed.

Lemma unescaped_not_percent c : unescapedSet c = true -> (c =? 37) = false.
Proof.
  intros Hu. apply Z.eqb_neq. intros ->. discriminate Hu.
Qed.

Lemma Decode_loop_encode_ref s r :
  Forall code_unit s -> encode_ref s = Ok r ->
  forall fuel R, (List.length r <= fuel)%nat -> Decode_loop fuel r R = Ok (R ++ s).
Proof.
  revert r.
  induction s as [[|c rest] IH] using list_len_ind; intros r Hs E fuel R Hf.
  { inv E. destruct fuel; simpl; now rewrite app_nil_r. }
  inv Hs. apply encode_ref_cons_Ok in E.
  destruct E as [[Hu [r' [E ->]]] | [[_ [Hl [Ht [r' [E ->]]]]] |
                 [c2 [rest2 [-> [_ [Hl [Ht [r' [E ->]]]]]]]]]].
  - destruct fuel as [|fuel]; simpl in Hf; [lia|].
    cbn [Decode_loop]. rewrite unescaped_not_percent by exact Hu. cbn [negb].
    rewrite (IH rest) with (r := r') by (simpl; auto; lia). now rewrite <- app_assoc.
  - rewrite length_app, length_escape_octets in Hf.
    pose proof (UTF8_length c) as [Hlo _].
    destruct fuel as [|fuel]; [lia|].
    unfold code_unit in *.
    rewrite Decode_loop_code_point, UTF16EncodeCodePoint_bmp.
    + rewrite (IH rest) with (r := r') by (simpl; auto; lia). now rewrite <- app_assoc.
    + lia.
    + lia.
    + unfold is_leading_surrogate, is_trailing_surrogate in *.
      rewrite andb_false_iff, !Z.leb_gt in Hl, Ht. lia.
  - match goal with H : Forall code_unit (c2 :: rest2) |- _ => inv H end.
    rewrite length_app, length_escape_octets in Hf.
    pose proof (UTF8_length (UTF16SurrogatePairToCodePoint c c2)) as [Hlo _].
    pose proof (pair_code_point_range c c2 Hl Ht).
    destruct fuel as [|fuel]; [lia|].
    rewrite Decode_loop_code_point, UTF16EncodeCodePoint_pair by (auto; lia).
    rewrite (IH rest2) with (r := r') by (simpl; auto; lia). now rewrite <- app_assoc.
Qed.

(** ** Round-trip theorems *)

(** Decoding an [encodeURIComponent] result with [decodeURIComponent]
    gives back the original string. *)
Lemma decode_encode s r :
  Forall code_unit s -> encodeURIComponent s = Ok r -> decodeURIComponent r = Ok s.
Proof.
  intros Hs E. rewrite encodeURIComponent_ref in E. unfold decodeURIComponent.
  exact (Decode_loop_encode_ref s r Hs E _ [] (le_n _)).
Qed.

(** C6: Every well-formed string is encoded without error, and its
    encoding decodes to it. *)
Theorem encodeURIComponent_roundtrip s :
  Forall code_unit s -> wf_utf16 s ->
  exists r, encodeURIComponent s = Ok r /\ decodeURIComponent r = Ok s.
Proof.
  intros Hs Hw. apply wf_encode_ok in Hw. rewrite <- encodeURIComponent_ref in Hw.
  destruct (encodeURIComponent s) as [r|] eqn:E; [|discriminate].
  eauto using decode_encode.
Qed.

(** C19: Two strings with the same encoding are equal. *)
Theorem encodeURIComponent_injective s1 s2 r :
  Forall code_unit s1 -> Forall code_unit s2 ->
  encodeURIComponent s1 = Ok r -> encodeURIComponent s2 = Ok r -> s1 = s2.
Proof.
  intros H1 H2 E1 E2.
  apply decode_encode in E1, E2; auto.
  congruence.
Qed.

(** ** Witnesses *)

(** ["Hi"], an en dash (U+2013) and a grinning face (U+1F600, a
    surrogate pair), and its encoding. *)
Definition sample_text : jsstr := js "Hi" ++ [8211; 0xD83D; 0xDE00].
Definition sample_encoded : jsstr := js "Hi%E2%80%93%F0%9F%98%80".

Ltac prove_code_units := repeat constructor; unfold code_unit; lia.

Ltac prove_wf_utf16 :=
  repeat first [ apply wf_nil
               | apply wf_bmp; [reflexivity | reflexivity |]
               | apply wf_pair; [reflexivity | reflexivity |] ].

Lemma encodeURIComponent_alphabet_witness :
  Forall code_unit sample_text /\ encodeURIComponent sample_text = Ok sample_encoded /\
  Forall (fun c => uri_component_char c = true) sample_encoded.
Proof.
  split; [prove_code_units|]. split; [vm_compute; reflexivity|].
  apply (encodeURIComponent_alphabet sample_text); [prove_code_units | vm_compute; reflexivity].
Defined.

Lemma encodeURIComponent_length_witness :
  Forall code_unit sample_text /\ encodeURIComponent sample_text = Ok sample_encoded /\
  (List.length sample_text <= List.length sample_encoded <= 9 * List.length sample_text)%nat.
Proof.
  split; [prove_code_units|]. split; [vm_compute; reflexivity|].
  apply (encodeURIComponent_length sample_text); [prove_code_units | vm_compute; reflexivity].
Defined.

Lemma encodeURIComponent_roundtrip_witness :
  Forall code_unit sample_text /\ wf_utf16 sample_text /\
  exists r, encodeURIComponent sample_text = Ok r /\ decodeURIComponent r = Ok sample_text.
Proof.
  split; [prove_code_units|]. split; [prove_wf_utf16|].
  apply encodeURIComponent_roundtrip; [prove_code_units | prove_wf_utf16].
Defined.

Lemma encodeURIComponent_injective_witness :
  Forall code_unit sample_text /\ encodeURIComponent sample_text = Ok sample_encoded /\
  sample_text = sample_text.
Proof.
  split; [prove_code_units|]. split; [vm_compute; reflexivity|].
  apply (encodeURIComponent_injective sample_text sample_text sample_encoded);
    [prove_code_units | prove_code_units | vm_compute; reflexivity | vm_compute; reflexivity].
Defined.

End UriEncode.
