(* ===== verification/Regex.v ===== *)
(** * The user-agent test [/iPhone|iPad|iPod|Android/i.test(...)]

    [handleWhatsAppClick] (src/app/page.tsx line 283) decides whether the
    device is mobile with a regular-expression literal and
    [RegExp.prototype.test].  This file models the fragment of ECMA-262
    regular expressions that the literal uses: a Disjunction of
    Alternatives made of PatternCharacters, compiled to continuation-
    passing Matchers as in "CompileSubpattern", with [Canonicalize] for
    the [i] flag, and [RegExpBuiltinExec]'s search loop over [lastIndex],
    with the [g] and [y] flags and the [lastIndex] property it reads and
    writes.

    [Canonicalize] needs Unicode's upper-case mapping for non-ASCII code
    units; it is a Section variable ([toUppercase_nonascii]), so every
    theorem holds for any table.  For ASCII code units the mapping is
    the ASCII one. *)

From Stdlib Require Import ZArith List String Lia Bool.
From S2P Require Import Prelude.
Import ListNotations.
Local Open Scope Z_scope.

Module Regex.

(** ** Syntax and flags *)

(** A Term of the pattern: the literal uses PatternCharacters only. *)
Inductive Term := PatternCharacter (c : Z).

Definition Alternative := list Term.
Definition Disjunction := list Alternative.

Record RegExp := {
  source : Disjunction;
  ignoreCase : bool;
  global : bool;
  sticky : bool
}.

Definition toUppercase_ascii (c : Z) : Z :=
  if (97 <=? c) && (c <=? 122) then c - 32 else c.

Section Semantics.

(** Unicode [toUppercase] of a non-ASCII code unit: [Some cu] when the
    upper-case form is the single code unit [cu], [None] when it has
    another length. *)
Variable toUppercase_nonascii : Z -> option Z.

(** [Canonicalize(rer, ch)] without the [u] and [v] flags. *)
Definition Canonicalize (ic : bool) (ch : Z) : Z :=
  if negb ic then ch
  else if ch <? 128 then toUppercase_ascii ch
  else match toUppercase_nonascii ch with
       | None => ch
       | Some cu => if cu <? 128 then ch else cu
       end.

(** ** Matchers *)

(** A Continuation maps the end index of a match to the end index of
    the whole match, or [None] for failure; a Matcher also takes the
    start index. *)
Definition Continuation := nat -> option nat.
Definition Matcher := nat -> Continuation -> option nat.

Section Compile.
Variable rer_ignoreCase : bool.
Variable Input : jsstr.

(** CharacterSetMatcher for the one-character set of a
    PatternCharacter, matching forwards. *)
Definition CharacterSetMatcher (a : Z) : Matcher :=
  fun e c =>
    match nth_error Input e with
    | None => None
    | Some ch =>
        if Canonicalize rer_ignoreCase ch =? Canonicalize rer_ignoreCase a
        then c (S e) else None
    end.

Definition CompileTerm (t : Term) : Matcher :=
  match t with PatternCharacter a => CharacterSetMatcher a end.

(** Alternative :: Alternative Term, and the empty Alternative. *)
Fixpoint CompileAlternative (alt : Alternative) : Matcher :=
  match alt with
  | [] => fun x c => c x
  | t :: rest => fun x c => CompileTerm t x (fun y => CompileAlternative rest y c)
  end.

(** Disjunction :: Alternative | Disjunction: the left alternative
    first, the right one on failure. *)
Fixpoint CompileDisjunction (d : Disjunction) : Matcher :=
  match d with
  | [] => fun _ _ => None
  | alt :: rest =>
      fun x c =>
        match CompileAlternative alt x c with
        | Some r => Some r
        | None => CompileDisjunction rest x c
        end
  end.

End Compile.

(** The compiled pattern applied at an index, with the continuation
    that accepts. *)
Definition RegExpMatcher (R : RegExp) (Input : jsstr) (index : nat) : option nat :=
  CompileDisjunction (ignoreCase R) Input (source R) index (fun y => Some y).

(** ** RegExpBuiltinExec *)

(** The search loop: try [lastIndex], then the next index, until a
    match or the end of the input ([sticky] stops after one try). *)
Fixpoint exec_loop (R : RegExp) (S : jsstr) (fuel : nat) (lastIndex : nat)
  : option (nat * nat) :=
  match fuel with
  | O => None
  | Datatypes.S fuel' =>
      if (List.length S <? lastIndex)%nat then None
      else
        match RegExpMatcher R S lastIndex with
        | None => if sticky R then None else exec_loop R S fuel' (lastIndex + 1)
        | Some e => Some (lastIndex, e)
        end
  end.

(** The match (start and end index) or [null], and the new value of the
    [lastIndex] property. *)
Definition RegExpBuiltinExec (R : RegExp) (lastIndexProp : nat) (S : jsstr)
  : option (nat * nat) * nat :=
  let stateful := global R || sticky R in
  let lastIndex := if stateful then lastIndexProp else 0%nat in
  match exec_loop R S (List.length S + 1) lastIndex with
  | None => (None, if stateful then 0%nat else lastIndexProp)
  | Some (i, e) => (Some (i, e), if stateful then e else lastIndexProp)
  end.

(** [RegExp.prototype.test]: whether [exec] found a match, and the new
    [lastIndex]. *)
Definition test (R : RegExp) (lastIndexProp : nat) (S : jsstr) : bool * nat :=
  let (r, li) := RegExpBuiltinExec R lastIndexProp S in
  (match r with Some _ => true | None => false end, li).

(** ** Matcher correctness *)

(** The Alternative [alt] matches the input at index [x]: the code
    units from [x] on are, one by one, the alternative's characters up
    to [Canonicalize]. *)
Definition matches_at (ic : bool) (Input : jsstr) (alt : Alternative) (x : nat) : Prop :=
  Forall2 (fun ch t => match t with PatternCharacter a => Canonicalize ic ch = Canonicalize ic a end)
    (firstn (List.length alt) (skipn x Input)) alt.

Lemma matches_at_cons ic Input a rest x :
  matches_at ic Input (PatternCharacter a :: rest) x <->
  exists ch, nth_error Input x = Some ch /\ Canonicalize ic ch = Canonicalize ic a /\
             matches_at ic Input rest (S x).
Proof.
  unfold matches_at. cbn [List.length].
  destruct (nth_error Input x) as [ch|] eqn:E.
  - rewrite (skipn_nth_error_cons _ _ _ E). cbn [firstn]. split.
    + intros H. inv H. eauto.
    + intros [ch' [H1 [H2 H3]]]. inv H1. now constructor.
  - rewrite (skipn_nth_error_None _ _ E). cbn [firstn]. split.
    + intros H. inv H.
    + intros [ch' [H1 _]]. discriminate.
Qed.

(** An Alternative's matcher calls its continuation at the end of the
    match when the alternative matches, and fails otherwise. *)
Lemma CompileAlternative_spec ic Input alt x c :
  (matches_at ic Input alt x /\
     CompileAlternative ic Input alt x c = c (x + List.length alt)%nat)
  \/ (~ matches_at ic Input alt x /\ CompileAlternative ic Input alt x c = None).
Proof.
  revert x; induction alt as [|[a] rest IH]; intros x.
  - left. split; [constructor | simpl; now rewrite Nat.add_0_r].
  - cbn [CompileAlternative CompileTerm]. unfold CharacterSetMatcher.
    rewrite matches_at_cons.
    destruct (nth_error Input x) as [ch|] eqn:E.
    2:{ right. split; [intros [ch' [H _]]; discriminate | reflexivity]. }
    destruct (Z.eqb_spec (Canonicalize ic ch) (Canonicalize ic a)) as [Heq|Hne].
    + destruct (IH (S x)) as [[Hm ->] | [Hm ->]].
      * left. split; [eauto|]. f_equal. cbn [List.length]. lia.
      * right. split; [|reflexivity]. intros [ch' [H1 [_ H3]]]. congruence.
    + right. split; [|reflexivity]. intros [ch' [H1 [H2 _]]]. congruence.
Qed.

(** The compiled pattern returns the end of the first alternative, in
    the order of the Disjunction, that matches at the index. *)
Lemma RegExpMatcher_spec R Input x e :
  RegExpMatcher R Input x = Some e <->
  exists pre alt post, source R = pre ++ alt :: post /\
    Forall (fun a => ~ matches_at (ignoreCase R) Input a x) pre /\
    matches_at (ignoreCase R) Input alt x /\ e = (x + List.length alt)%nat.
Proof.
  unfold RegExpMatcher. induction (source R) as [|alt d IH]; cbn [CompileDisjunction].
  - split; [discriminate|]. intros [[|? pre] [alt [post [H _]]]]; discriminate.
  - destruct (CompileAlternative_spec (ignoreCase R) Input alt x (fun y => Some y))
      as [[Hm ->] | [Hm ->]].
    + split.
      * intros H. inv H. exists [], alt, d. repeat split; auto.
      * intros [[|a pre] [alt' [post [H [Hpre [Hm' ->]]]]]]; inv H; [reflexivity|].
        inv Hpre. contradiction.
    + rewrite IH. split.
      * intros [pre [alt' [post [-> [Hpre [Hm' ->]]]]]].
        exists (alt :: pre), alt', post. repeat split; auto.
      * intros [[|a pre] [alt' [post [H [Hpre [Hm' ->]]]]]]; inv H; [contradiction|].
        inv Hpre. exists pre, alt', post. auto.
Qed.

Lemma RegExpMatcher_None R Input x :
  RegExpMatcher R Input x = None <->
  Forall (fun a => ~ matches_at (ignoreCase R) Input a x) (source R).
Proof.
  unfold RegExpMatcher. induction (source R) as [|alt d IH]; cbn [CompileDisjunction].
  - split; constructor.
  - destruct (CompileAlternative_spec (ignoreCase R) Input alt x (fun y => Some y))
      as [[Hm ->] | [Hm ->]].
    + split; [discriminate|]. intros H. inv H. contradiction.
    + rewrite IH. split; [intros H; now constructor | intros H; now inv H].
Qed.

(** ** The search loop *)

(** Without the [y] flag the loop returns the first index from
    [lastIndex] on where the pattern matches, or fails when there is
    none up to the end of the input; the fuel [length S + 1 - lastIndex]
    suffices. *)
Lemma exec_loop_spec R S fuel li :
  sticky R = false -> (List.length S + 1 <= fuel + li)%nat ->
  match exec_loop R S fuel li with
  | Some (i, e) =>
      (li <= i <= List.length S)%nat /\ RegExpMatcher R S i = Some e /\
      forall j, (li <= j < i)%nat -> RegExpMatcher R S j = None
  | None => forall j, (li <= j <= List.length S)%nat -> RegExpMatcher R S j = None
  end.
Proof.
  intros Hst. revert li. induction fuel as [|fuel IH]; intros li Hf; cbn [exec_loop].
  - intros j Hj. lia.
  - destruct (Nat.ltb_spec (List.length S) li); [intros j Hj; lia|].
    destruct (RegExpMatcher R S li) as [e|] eqn:E.
    + split; [lia|]. split; [exact E|]. intros j Hj. lia.
    + rewrite Hst. specialize (IH (li + 1)%nat ltac:(lia)).
      destruct (exec_loop R S fuel (li + 1)) as [[i e]|].
      * destruct IH as [H1 [H2 H3]]. split; [lia|]. split; [exact H2|].
        intros j Hj. destruct (Nat.eq_dec j li) as [->|]; [exact E | apply H3; lia].
      * intros j Hj. destruct (Nat.eq_dec j li) as [->|]; [exact E | apply IH; lia].
Qed.

(** C15: For a regular expression without the [g] and [y] flags,
    [RegExpBuiltinExec] leaves [lastIndex] alone and returns the
    leftmost match: a match at [i] ending at [e], and none before [i]. *)
Theorem RegExpBuiltinExec_leftmost R li S i e li' :
  global R = false -> sticky R = false ->
  RegExpBuiltinExec R li S = (Some (i, e), li') ->
  li' = li /\ (i <= List.length S)%nat /\ RegExpMatcher R S i = Some e /\
  forall j, (j < i)%nat -> RegExpMatcher R S j = None.
Proof.
  intros Hg Hst. unfold RegExpBuiltinExec. rewrite Hg, Hst. cbn [orb].
  pose proof (exec_loop_spec R S (List.length S + 1) 0 Hst ltac:(lia)) as H.
  destruct (exec_loop R S (List.length S + 1) 0) as [[i' e']|]; intros E; inv E.
  destruct H as [H1 [H2 H3]]. repeat split; auto; [lia|]. intros j Hj. apply H3. lia.
Qed.

(** For a regular expression without the [g] and [y] flags, [test]
    leaves [lastIndex] unchanged and answers whether some alternative
    matches at some index of the string. *)
Lemma test_spec R li S :
  global R = false -> sticky R = false ->
  snd (test R li S) = li /\
  (fst (test R li S) = true <->
   exists i alt, (i <= List.length S)%nat /\ In alt (source R) /\
                 matches_at (ignoreCase R) S alt i).
Proof.
  intros Hg Hst. unfold test, RegExpBuiltinExec. rewrite Hg, Hst. cbn [orb].
  pose proof (exec_loop_spec R S (List.length S + 1) 0 Hst ltac:(lia)) as H.
  destruct (exec_loop R S (List.length S + 1) 0) as [[i e]|]; cbn [fst snd];
    split; try reflexivity; split.
  - intros _. destruct H as [H1 [H2 _]].
    apply RegExpMatcher_spec in H2. destruct H2 as [pre [alt [post [Hs [_ [Hm _]]]]]].
    exists i, alt. rewrite Hs. split; [lia|]. split; [apply in_or_app; simpl; auto | exact Hm].
  - reflexivity.
  - discriminate.
  - intros [i [alt [Hi [Hin Hm]]]]. specialize (H i ltac:(lia)).
    apply RegExpMatcher_None in H. rewrite Forall_forall in H. exfalso. exact (H alt Hin Hm).
Qed.

End Semantics.

(** ** The literal of [handleWhatsAppClick] *)

Definition chars (s : string) : Alternative := map PatternCharacter (js s).

(** [/iPhone|iPad|iPod|Android/i] *)
Definition mobileRegex : RegExp := {|
  source := [chars "iPhone"; chars "iPad"; chars "iPod"; chars "Android"];
  ignoreCase := true;
  global := false;
  sticky := false
|}.

(** [const isMobile = /iPhone|iPad|iPod|Android/i.test(navigator.userAgent)];
    a regular-expression literal is a fresh object with [lastIndex] 0. *)
Definition isMobile (table : Z -> option Z) (userAgent : jsstr) : bool :=
  fst (test table mobileRegex 0 userAgent).

(** ** The mobile test *)

(** Equality up to ASCII case, for an ASCII pattern character. *)
Definition ci_equal (ch a : Z) : Prop := ch < 128 /\ toUppercase_ascii ch = toUppercase_ascii a.

Lemma toUppercase_ascii_lt a : a < 128 -> toUppercase_ascii a < 128.
Proof.
  unfold toUppercase_ascii. destruct ((97 <=? a) && (a <=? 122)) eqn:E; [|lia].
  rewrite andb_true_iff, !Z.leb_le in E. lia.
Qed.

(** A non-ASCII code unit never canonicalizes to an ASCII one, whatever
    the Unicode table: an ASCII pattern character matches only ASCII. *)
Lemma Canonicalize_ascii table ch a :
  a < 128 ->
  Canonicalize table true ch = Canonicalize table true a <-> ci_equal ch a.
Proof.
  intros Ha. unfold Canonicalize, ci_equal. cbn [negb].
  rewrite (proj2 (Z.ltb_lt a 128) Ha).
  pose proof (toUppercase_ascii_lt a Ha).
  destruct (Z.ltb_spec ch 128); [tauto|].
  split; [|lia]. destruct (table ch) as [cu|]; [destruct (Z.ltb_spec cu 128)|]; lia.
Qed.

Lemma matches_at_chars table ua p i :
  Forall (fun a => a < 128) p ->
  matches_at table true ua (map PatternCharacter p) i <->
  Forall2 ci_equal (firstn (List.length p) (skipn i ua)) p.
Proof.
  intros Hp. unfold matches_at. rewrite length_map.
  generalize (firstn (List.length p) (skipn i ua)).
  induction Hp as [|a p Ha _ IH]; intros mid; cbn [map].
  - split; intros H; inv H; constructor.
  - split; intros H; inv H; constructor;
      first [ now apply IH | now apply (Canonicalize_ascii table) ].
Qed.

Definition mobile_patterns : list jsstr := [js "iPhone"; js "iPad"; js "iPod"; js "Android"].

Lemma mobile_patterns_ascii : Forall (Forall (fun a => a < 128)) mobile_patterns.
Proof. repeat constructor; vm_compute; reflexivity. Qed.

(** [isMobile] holds exactly when the user-agent string contains one of
    [iPhone], [iPad], [iPod], [Android] up to ASCII case, whatever the
    Unicode case table. *)
Lemma isMobile_occurrence table ua :
  isMobile table ua = true <->
  exists pre mid post p, ua = pre ++ mid ++ post /\ In p mobile_patterns /\
                         Forall2 ci_equal mid p.
Proof.
  unfold isMobile.
  destruct (test_spec table mobileRegex 0 ua eq_refl eq_refl) as [_ ->].
  pose proof mobile_patterns_ascii as Hasc. rewrite Forall_forall in Hasc.
  split.
  - intros [i [alt [Hi [Hin Hm]]]].
    assert (exists p, alt = map PatternCharacter (js p) /\ In (js p) mobile_patterns)
      as [p [-> Hp]].
    { simpl in Hin. unfold chars in Hin.
      destruct Hin as [<-|[<-|[<-|[<-|[]]]]]; eexists; (split; [reflexivity|]); simpl; tauto. }
    apply matches_at_chars in Hm; [|auto].
    exists (firstn i ua), (firstn (List.length (js p)) (skipn i ua)),
      (skipn (List.length (js p)) (skipn i ua)), (js p).
    split; [now rewrite !firstn_skipn | auto].
  - intros [pre [mid [post [p [-> [Hin Hm]]]]]].
    exists (List.length pre), (map PatternCharacter p).
    split; [rewrite !length_app; lia|]. split.
    + simpl in Hin. destruct Hin as [<-|[<-|[<-|[<-|[]]]]]; simpl; tauto.
    + apply matches_at_chars; [auto|].
      rewrite skipn_app, skipn_all, Nat.sub_diag. simpl.
      rewrite <- (Forall2_length Hm), firstn_app, firstn_all, Nat.sub_diag, firstn_O, app_nil_r.
      exact Hm.
Qed.

(** C9: A user agent that contains [iPhone], [iPad], [iPod] or [Android]
    anywhere is mobile. *)
Corollary isMobile_contains table pre p post :
  In p mobile_patterns -> isMobile table (pre ++ p ++ post) = true.
Proof.
  intros Hin. apply isMobile_occurrence. exists pre, p, post, p. split; [reflexivity|]. split; [exact Hin|].
  pose proof mobile_patterns_ascii as Hasc. rewrite Forall_forall in Hasc.
  specialize (Hasc p Hin). clear Hin. induction Hasc; constructor; try split; auto.
Qed.

(** C20: Extending the user-agent string on either side never turns a
    mobile answer into a non-mobile one. *)
Corollary isMobile_extend table pre ua post :
  isMobile table ua = true -> isMobile table (pre ++ ua ++ post) = true.
Proof.
  rewrite !isMobile_occurrence. intros [pre' [mid [post' [p [-> [Hin Hm]]]]]].
  exists (pre ++ pre'), mid, (post' ++ post), p. split; [now rewrite <- !app_assoc | auto].
Qed.

(** C16: The answer of the user-agent test does not depend on Unicode's
    upper-case table for non-ASCII characters: no non-ASCII character
    matches an ASCII pattern character under the [i] flag. *)
Theorem isMobile_table_independent table1 table2 ua :
  isMobile table1 ua = isMobile table2 ua.
Proof.
  apply eq_true_iff_eq. rewrite !isMobile_occurrence. reflexivity.
Qed.

(** ** Witnesses *)

(** A Unicode table that maps no non-ASCII code unit. *)
Definition no_table : Z -> option Z := fun _ => None.

Definition iphone_ua : jsstr :=
  js "Mozilla/5.0 (iPhone; CPU iPhone OS 17_0 like Mac OS X) AppleWebKit/605.1.15".

Lemma RegExpBuiltinExec_leftmost_witness :
  global mobileRegex = false /\ sticky mobileRegex = false /\
  RegExpBuiltinExec no_table mobileRegex 0 iphone_ua = (Some (13%nat, 19%nat), 0%nat) /\
  0%nat = 0%nat /\ (13 <= List.length iphone_ua)%nat /\
  RegExpMatcher no_table mobileRegex iphone_ua 13 = Some 19%nat /\
  (forall j, (j < 13)%nat -> RegExpMatcher no_table mobileRegex iphone_ua j = None).
Proof.
  split; [reflexivity|]. split; [reflexivity|]. split; [vm_compute; reflexivity|].
  apply (RegExpBuiltinExec_leftmost no_table mobileRegex 0 iphone_ua 13 19 0);
    [reflexivity | reflexivity | vm_compute; reflexivity].
Defined.

Lemma isMobile_contains_witness :
  In (js "iPad") mobile_patterns /\
  isMobile no_table (js "Mozilla/5.0 (" ++ js "iPad" ++ js "; CPU OS 12_0)") = true.
Proof.
  split; [simpl; tauto|]. apply isMobile_contains. simpl; tauto.
Defined.

Lemma isMobile_extend_witness :
  isMobile no_table (js "android") = true /\
  isMobile no_table (js "Linux; " ++ js "android" ++ js " 14") = true.
Proof.
  split; [vm_compute; reflexivity|]. apply isMobile_extend. vm_compute; reflexivity.
Defined.

End Regex.
