(* ===== verification/Browser.v ===== *)
(** * The browser state the handlers act on

    The click handlers of src/app/page.tsx touch the browser through
    [window.location.href] (the [mailto:] buttons), [window.open] (the
    WhatsApp, Discord and Instagram buttons), [navigator.userAgent]
    (read by [handleWhatsAppClick]) and the DOM calls of the resume
    buttons: [document.createElement], the [href] and [download]
    properties, [document.body.appendChild], [HTMLElement.click] and
    [document.body.removeChild].

    [Browser] records that state: the DOM elements by node identifier in
    a [gmap] (an element is a shared object: the handler's [link]
    variable is its identifier), the children of [document.body] in
    order, the [window.open] calls and the downloads started, and one
    browser-behaviour flag: whether [click()] on an anchor that is not
    connected to the document is ignored (as some browsers do, which is
    why the code appends the anchor before clicking it).  DOM operations
    are functions [Browser -> result (A * Browser)] ([DOM A]), which
    throw [NotFoundError] where the DOM standard does. *)

From stdpp Require Import gmap.
From Stdlib Require Import ZArith String.
From S2P Require Import Prelude.

Module Browser.

(** An element made by [document.createElement]: its tag and the two
    anchor attributes the code sets. *)
Record Element := {
  tagName : jsstr;
  href : option jsstr;
  download : option jsstr
}.

Record Browser := {
  location : jsstr;
  opened : list (jsstr * jsstr);
  downloads : list (jsstr * jsstr);
  nodes : gmap positive Element;
  body : list positive;
  next_id : positive;
  userAgent : jsstr;
  click_needs_connected : bool
}.

(** ** The DOM monad *)

Definition DOM (A : Type) := Browser -> result (A * Browser).

Definition dom_ret {A} (a : A) : DOM A := fun b => Ok (a, b).

Definition dom_bind {A B} (m : DOM A) (f : A -> DOM B) : DOM B :=
  fun b => match m b with
           | Ok (a, b') => f a b'
           | Throw e => Throw e
           end.

Declare Scope dom_scope.
Delimit Scope dom_scope with dom.
Notation "x <~ m ;; k" := (dom_bind m (fun x => k))
  (at level 100, m at next level, right associativity) : dom_scope.
Notation "m ;;; k" := (dom_bind m (fun _ => k))
  (at level 100, right associativity) : dom_scope.

Definition modify (f : Browser -> Browser) : DOM unit := fun b => Ok (tt, f b).

(** ** Operations *)

(** [document.createElement(tag)]: a fresh element, not in the tree. *)
Definition createElement (tag : jsstr) : DOM positive :=
  fun b =>
    let id := next_id b in
    Ok (id, {| location := location b; opened := opened b; downloads := downloads b;
               nodes := <[id := {| tagName := tag; href := None; download := None |}]> (nodes b);
               body := body b; next_id := Pos.succ id; userAgent := userAgent b;
               click_needs_connected := click_needs_connected b |}).

Definition set_nodes (f : gmap positive Element -> gmap positive Element) (b : Browser) : Browser :=
  {| location := location b; opened := opened b; downloads := downloads b;
     nodes := f (nodes b); body := body b; next_id := next_id b; userAgent := userAgent b;
     click_needs_connected := click_needs_connected b |}.

Definition set_body (l : list positive) (b : Browser) : Browser :=
  {| location := location b; opened := opened b; downloads := downloads b;
     nodes := nodes b; body := l; next_id := next_id b; userAgent := userAgent b;
     click_needs_connected := click_needs_connected b |}.

(** [link.href = v] *)
Definition setHref (id : positive) (v : jsstr) : DOM unit :=
  modify (set_nodes (alter (fun el => {| tagName := tagName el; href := Some v;
                                          download := download el |}) id)).

(** [link.download = v] *)
Definition setDownload (id : positive) (v : jsstr) : DOM unit :=
  modify (set_nodes (alter (fun el => {| tagName := tagName el; href := href el;
                                          download := Some v |}) id)).

(** [document.body.appendChild(node)]: a node already in the body is
    moved to the end; [TypeError] when the argument is not a node. *)
Definition appendChild (id : positive) : DOM unit :=
  fun b => match nodes b !! id with
           | None => Throw TypeError
           | Some _ => Ok (tt, set_body (filter (fun c => c <> id) (body b) ++ [id]) b)
           end.

(** [document.body.removeChild(node)]: [TypeError] when the argument is
    not a node, [NotFoundError] when it is not a child of the body. *)
Definition removeChild (id : positive) : DOM unit :=
  fun b => match nodes b !! id with
           | None => Throw TypeError
           | Some _ =>
               if decide (id ∈ body b)
               then Ok (tt, set_body (filter (fun c => c <> id) (body b)) b)
               else Throw NotFoundError
           end.

(** The activation behaviour of [link.click()] for an [a] element with
    an [href]: a download when the [download] attribute is present, a
    navigation otherwise; nothing when the browser ignores clicks on
    disconnected anchors and the anchor is not in the tree. *)
Definition click (id : positive) : DOM unit :=
  fun b =>
    match nodes b !! id with
    | Some el =>
        if bool_decide (tagName el = js "a") &&
           (negb (click_needs_connected b) || bool_decide (id ∈ body b)) then
          match href el, download el with
          | Some h, Some fn =>
              Ok (tt, {| location := location b; opened := opened b;
                         downloads := downloads b ++ [(h, fn)];
                         nodes := nodes b; body := body b; next_id := next_id b;
                         userAgent := userAgent b;
                         click_needs_connected := click_needs_connected b |})
          | Some h, None =>
              Ok (tt, {| location := h; opened := opened b; downloads := downloads b;
                         nodes := nodes b; body := body b; next_id := next_id b;
                         userAgent := userAgent b;
                         click_needs_connected := click_needs_connected b |})
          | None, _ => Ok (tt, b)
          end
        else Ok (tt, b)
    | None => Ok (tt, b)
    end.

(** [window.open(url, target)] *)
Definition windowOpen (url target : jsstr) : DOM unit :=
  modify (fun b => {| location := location b; opened := opened b ++ [(url, target)];
                      downloads := downloads b; nodes := nodes b; body := body b;
                      next_id := next_id b; userAgent := userAgent b;
                      click_needs_connected := click_needs_connected b |}).

(** [window.location.href = url] *)
Definition setLocation (url : jsstr) : DOM unit :=
  modify (fun b => {| location := url; opened := opened b; downloads := downloads b;
                      nodes := nodes b; body := body b; next_id := next_id b;
                      userAgent := userAgent b;
                      click_needs_connected := click_needs_connected b |}).

(** ** Well-formedness *)

(** The body lists each child once, every child is an element of the
    store, and every stored element has an identifier below [next_id]
    (so [createElement] always makes a fresh one). *)
Definition wf (b : Browser) : Prop :=
  NoDup (body b) /\
  (forall id, id ∈ body b -> is_Some (nodes b !! id)) /\
  (forall id, is_Some (nodes b !! id) -> (id < next_id b)%positive).

(** A DOM computation that keeps the state well formed. *)
Definition preserves {A} (m : DOM A) : Prop :=
  forall b a b', wf b -> m b = Ok (a, b') -> wf b'.

Lemma preserves_ret {A} (a : A) : preserves (dom_ret a).
Proof. intros b x b' H E. now inv E. Qed.

Lemma preserves_bind {A B} (m : DOM A) (f : A -> DOM B) :
  preserves m -> (forall a, preserves (f a)) -> preserves (dom_bind m f).
Proof.
  intros Hm Hf b c b'' Hb E. unfold dom_bind in E.
  destruct (m b) as [[a b']|] eqn:Em; [|discriminate].
  eapply Hf; [eapply Hm|]; eauto.
Qed.

#[export] Hint Resolve preserves_ret preserves_bind : portfolio.

(** An [alter] of the store keeps its domain. *)
Lemma is_Some_alter (f : Element -> Element) (m : gmap positive Element) i j :
  is_Some (alter f i m !! j) <-> is_Some (m !! j).
Proof.
  rewrite lookup_alter. case_decide; [|done]. subst. destruct (m !! j); simpl; split; eauto.
Qed.

Lemma createElement_preserves tag : preserves (createElement tag).
Proof.
  intros b id b' [Hnd [Hin Hlt]] E. inv E. unfold wf; simpl. split; [done|]. split.
  - intros id Hid. rewrite lookup_insert_is_Some'. eauto.
  - intros id Hid. rewrite lookup_insert_is_Some' in Hid.
    destruct Hid as [->|Hid]; [lia|]. specialize (Hlt id Hid). lia.
Qed.

Lemma set_nodes_alter_preserves (f : Element -> Element) id :
  preserves (modify (set_nodes (alter f id))).
Proof.
  intros b u b' [Hnd [Hin Hlt]] E. inv E. unfold wf; simpl.
  split; [done|]. split; intros j Hj; rewrite ?is_Some_alter in *; auto.
Qed.

Lemma setHref_preserves id v : preserves (setHref id v).
Proof. apply set_nodes_alter_preserves. Qed.

Lemma setDownload_preserves id v : preserves (setDownload id v).
Proof. apply set_nodes_alter_preserves. Qed.

Lemma appendChild_preserves id : preserves (appendChild id).
Proof.
  intros b u b' [Hnd [Hin Hlt]] E. unfold appendChild in E.
  destruct (nodes b !! id) eqn:En; [|discriminate]. inv E.
  unfold wf; simpl. split; [|split; [|done]].
  - apply NoDup_app. split; [by apply NoDup_filter|]. split; [|apply NoDup_singleton].
    intros x. rewrite list_elem_of_filter, list_elem_of_singleton. intros [Hne _]; exact Hne.
  - intros j. rewrite elem_of_app, list_elem_of_filter, list_elem_of_singleton.
    intros [[_ Hj]|Hj]; [auto | subst; rewrite En; eauto].
Qed.

Lemma removeChild_preserves id : preserves (removeChild id).
Proof.
  intros b u b' [Hnd [Hin Hlt]] E. unfold removeChild in E.
  destruct (nodes b !! id); [|discriminate].
  case_decide; inv E. unfold wf; simpl. split; [by apply NoDup_filter|]. split; [|done].
  intros j. rewrite list_elem_of_filter. intros [_ Hj]. auto.
Qed.

Lemma click_preserves id : preserves (click id).
Proof.
  intros b u b' Hb E. unfold click in E.
  destruct (nodes b !! id) as [el|]; [|now inv E].
  destruct (_ && _); [|now inv E].
  destruct (href el), (download el); inv E; apply Hb.
Qed.

Lemma windowOpen_preserves url target : preserves (windowOpen url target).
Proof. intros b u b' Hb E. inv E. apply Hb. Qed.

Lemma setLocation_preserves url : preserves (setLocation url).
Proof. intros b u b' Hb E. inv E. apply Hb. Qed.

#[export] Hint Resolve createElement_preserves setHref_preserves setDownload_preserves
  appendChild_preserves removeChild_preserves click_preserves windowOpen_preserves
  setLocation_preserves : portfolio.

(** [n] successive runs of a computation, as [n] clicks on a button. *)
Fixpoint dom_repeat (n : nat) (m : DOM unit) : DOM unit :=
  match n with
  | O => dom_ret tt
  | S n' => dom_bind m (fun _ => dom_repeat n' m)
  end.

Lemma filter_not_in (l : list positive) id :
  id ∉ l -> filter (fun c => c <> id) l = l.
Proof.
  induction l as [|x l IH]; intros Hn; [done|].
  rewrite filter_cons. rewrite not_elem_of_cons in Hn. destruct Hn as [Hx Hn].
  rewrite decide_True by (intros ->; done). now rewrite IH.
Qed.

Lemma createElement_fresh b :
  wf b -> nodes b !! next_id b = None /\ next_id b ∉ body b.
Proof.
  intros [_ [Hin Hlt]].
  assert (Hn : nodes b !! next_id b = None).
  { destruct (nodes b !! next_id b) eqn:E; [|done].
    specialize (Hlt (next_id b) ltac:(rewrite E; eauto)). lia. }
  split; [exact Hn|]. intros Hb. specialize (Hin _ Hb). rewrite Hn in Hin. now inv Hin.
Qed.

(** ** A concrete browser *)

(** The page as loaded: the body holds the application's root [div]
    (node 1); no window opened, no download yet. *)
Definition sample_browser (ua : jsstr) (needs_connected : bool) : Browser := {|
  location := js "https://i-am-smf.github.io/";
  opened := [];
  downloads := [];
  nodes := {[1%positive := {| tagName := js "div"; href := None; download := None |}]};
  body := [1%positive];
  next_id := 2%positive;
  userAgent := ua;
  click_needs_connected := needs_connected
|}.

Lemma sample_browser_wf ua nc : wf (sample_browser ua nc).
Proof.
  unfold wf, sample_browser; cbn [body nodes next_id]. split; [apply NoDup_singleton|]. split.
  - intros id Hid. apply list_elem_of_singleton in Hid. subst. rewrite lookup_singleton_eq. eauto.
  - intros id [x Hx]. apply lookup_singleton_Some in Hx. destruct Hx as [-> _]. lia.
Qed.

End Browser.
