(* ===== verification/Handlers.v ===== *)
(** * The click handlers of the page

    Every [onClick] of src/app/page.tsx, as a [DOM] computation:
    [handleWhatsAppClick] (lines 278-291), the two [mailto:] buttons
    (lines 320 and 360), the two resume buttons (lines 387-394 and
    401-408, one body [downloadResume] with two pairs of literals), and
    the Discord and Instagram buttons (lines 514 and 521).  [Button]
    names the page's buttons and [onClick] wires each to its handler.

    [handleWhatsAppClick] reads [navigator.userAgent] from the browser
    state and takes the Unicode upper-case table of [Canonicalize] as a
    parameter ([table]); its theorems hold for every table. *)

From stdpp Require Import gmap.
From Stdlib Require Import ZArith String.
From S2P Require Import Prelude UriEncode Regex Browser.
Import Browser.
Local Open Scope dom_scope.

Module Handlers.

(** ** WhatsApp *)

Definition phoneNumber : jsstr := js "917373675313".
Definition message : jsstr := js "Hi, I'd like to connect with you!".

(** The two template literals of the [whatsappUrl] conditional. *)
Definition whatsappUrl (isMobile : bool) : result jsstr :=
  if isMobile
  then res_map (fun enc => js "whatsapp://send?phone=" ++ phoneNumber ++ js "&text=" ++ enc)
         (UriEncode.encodeURIComponent message)
  else res_map (fun enc => js "https://web.whatsapp.com/send?phone=" ++ phoneNumber
                            ++ js "&text=" ++ enc)
         (UriEncode.encodeURIComponent message).

Definition handleWhatsAppClick (table : Z -> option Z) : DOM unit :=
  fun b =>
    let isMobile := Regex.isMobile table (userAgent b) in
    match whatsappUrl isMobile with
    | Ok url => windowOpen url (js "_blank") b
    | Throw e => Throw e
    end.

(** ** E-mail, Discord, Instagram *)

Definition mailtoUrl : jsstr := js "mailto:fahadguy8@gmail.com".

(** The envelope button of the hero section (line 320). *)
Definition heroEmailClick : DOM unit := setLocation mailtoUrl.

(** The address button of the contact card (line 360). *)
Definition contactEmailClick : DOM unit := setLocation mailtoUrl.

Definition discordClick : DOM unit :=
  windowOpen (js "https://discord.gg/MGr2ZemqyE") (js "_blank").

Definition instagramClick : DOM unit :=
  windowOpen (js "https://www.instagram.com/i_am_smf_/") (js "_blank").

(** ** Resume downloads *)

(** The body shared by the two resume buttons. *)
Definition downloadResume (path filename : jsstr) : DOM unit :=
  link <~ createElement (js "a") ;;
  setHref link path ;;;
  setDownload link filename ;;;
  appendChild link ;;;
  click link ;;;
  removeChild link.

Definition atsResumeClick : DOM unit :=
  downloadResume (js "/Shaik_Mohamed_Fahad_Resume_ATS.pdf")
                 (js "Shaik_Mohamed_Fahad_Resume_ATS.pdf").

Definition creativeResumeClick : DOM unit :=
  downloadResume (js "/Shaik_Mohamed_Fahad_Resume.pdf")
                 (js "Shaik_Mohamed_Fahad_Resume.pdf").

(** ** The buttons of the page *)

Inductive Button :=
| HeroEmail | ContactEmail | AtsResume | CreativeResume
| DiscordButton | InstagramButton | WhatsAppButton.

Definition onClick (table : Z -> option Z) (btn : Button) : DOM unit :=
  match btn with
  | HeroEmail => heroEmailClick
  | ContactEmail => contactEmailClick
  | AtsResume => atsResumeClick
  | CreativeResume => creativeResumeClick
  | DiscordButton => discordClick
  | InstagramButton => instagramClick
  | WhatsAppButton => handleWhatsAppClick table
  end.

(** ** Resume downloads: lemmas *)

Lemma downloadResume_preserves path filename : preserves (downloadResume path filename).
Proof. unfold downloadResume. eauto 10 with portfolio. Qed.

#[export] Hint Resolve downloadResume_preserves : portfolio.

(** The state after one run: a download is recorded, the anchor stays in
    the element store, and the body is what it was. *)
Lemma downloadResume_run path filename b :
  wf b ->
  downloadResume path filename b =
  Ok (tt, {| location := location b; opened := opened b;
             downloads := downloads b ++ [(path, filename)];
             nodes := <[next_id b := {| tagName := js "a"; href := Some path;
                                         download := Some filename |}]> (nodes b);
             body := body b; next_id := Pos.succ (next_id b); userAgent := userAgent b;
             click_needs_connected := click_needs_connected b |}).
Proof.
  intros Hwf. destruct (createElement_fresh b Hwf) as [Hn Hb].
  assert (Hin : next_id b ∈ filter (λ c, c ≠ next_id b) (body b) ++ [next_id b])
    by (apply elem_of_app; right; now apply list_elem_of_singleton).
  unfold downloadResume, dom_bind, createElement, setHref, setDownload, modify, appendChild,
    click, removeChild.
  cbn [nodes set_nodes set_body body click_needs_connected].
  simplify_map_eq. cbn [tagName href download].
  rewrite (bool_decide_true (_ ∈ _)) by exact Hin. rewrite orb_true_r. cbn [andb].
  simplify_map_eq. unfold set_body.
  cbn [nodes location opened downloads next_id userAgent click_needs_connected].
  rewrite filter_app, !(filter_not_in (body b)) by exact Hb.
  rewrite filter_cons_False by (intros H; now apply H). rewrite app_nil_r.
  rewrite !alter_insert_eq. reflexivity.
Qed.

(** ** Resume downloads: theorems *)

(** C3: A resume button never throws: it starts exactly one download of
    its file under its name, and leaves the document body, the location
    and the opened windows as they were, even in a browser that ignores
    clicks on anchors outside the document. *)
Theorem downloadResume_spec path filename b :
  wf b ->
  exists b', downloadResume path filename b = Ok (tt, b') /\ wf b' /\
    downloads b' = downloads b ++ [(path, filename)] /\
    body b' = body b /\ location b' = location b /\ opened b' = opened b.
Proof.
  intros Hwf. eexists. split; [now apply downloadResume_run|].
  split; [eapply downloadResume_preserves; [exact Hwf | now apply downloadResume_run]|].
  repeat split.
Qed.

(** C13: Clicking a resume button [n] times starts [n] downloads: the
    handler has no debouncing and no state of its own. *)
Theorem downloadResume_repeat n path filename b :
  wf b ->
  exists b', dom_repeat n (downloadResume path filename) b = Ok (tt, b') /\ wf b' /\
    downloads b' = downloads b ++ repeat (path, filename) n /\ body b' = body b.
Proof.
  revert b; induction n as [|n IH]; intros b Hwf.
  { exists b. cbn. rewrite app_nil_r. auto. }
  pose proof (downloadResume_run path filename b Hwf) as E1.
  pose proof (downloadResume_preserves path filename b tt _ Hwf E1) as Hw1.
  destruct (IH _ Hw1) as [b2 [E2 [Hw2 [Hd2 Hb2]]]].
  exists b2. cbn [dom_repeat]. unfold dom_bind. rewrite E1, E2.
  split; [reflexivity|]. split; [exact Hw2|]. split; [|exact Hb2].
  rewrite Hd2. cbn [downloads]. rewrite <- app_assoc. reflexivity.
Qed.

(** ** WhatsApp: theorems *)

(** The encoded greeting, as [encodeURIComponent] computes it. *)
Definition message_encoded : jsstr := js "Hi%2C%20I'd%20like%20to%20connect%20with%20you!".

(** The [text] parameter of the link: the comma and the spaces are
    escaped, the apostrophe and the exclamation mark are not (they are in
    [encodeURIComponent]'s unescaped set). *)
Lemma encode_message : UriEncode.encodeURIComponent message = Ok message_encoded.
Proof. vm_compute. reflexivity. Qed.

(** [handleWhatsAppClick] never throws and opens exactly one new
    browsing context ([_blank]) on the [whatsapp:] deep link when the
    user agent is mobile and on [web.whatsapp.com] otherwise; nothing
    else of the browser changes. *)
Lemma handleWhatsAppClick_run table b :
  handleWhatsAppClick table b =
  Ok (tt, {| location := location b;
             opened := opened b ++
               [((if Regex.isMobile table (userAgent b)
                  then js "whatsapp://send?phone=" else js "https://web.whatsapp.com/send?phone=")
                 ++ phoneNumber ++ js "&text=" ++ message_encoded, js "_blank")];
             downloads := downloads b; nodes := nodes b; body := body b;
             next_id := next_id b; userAgent := userAgent b;
             click_needs_connected := click_needs_connected b |}).
Proof.
  unfold handleWhatsAppClick, whatsappUrl. rewrite encode_message.
  destruct (Regex.isMobile table (userAgent b)); reflexivity.
Qed.

(** C1: A user agent that contains [iPhone], [iPad], [iPod] or
    [Android], in any letter case, gets exactly one new [_blank] window
    on [whatsapp://send?phone=917373675313&text=] followed by the
    encoded greeting; nothing else of the browser changes. *)
Theorem handleWhatsAppClick_mobile table b :
  (exists pre mid post p, userAgent b = pre ++ mid ++ post /\
     In p Regex.mobile_patterns /\ Forall2 Regex.ci_equal mid p) ->
  exists b', handleWhatsAppClick table b = Ok (tt, b') /\
    opened b' = opened b ++ [(js "whatsapp://send?phone=917373675313&text=" ++ message_encoded,
                              js "_blank")] /\
    location b' = location b /\ downloads b' = downloads b /\ body b' = body b.
Proof.
  intros Hua. apply (Regex.isMobile_occurrence table) in Hua.
  eexists. split; [apply handleWhatsAppClick_run|]. cbn [opened location downloads body].
  rewrite Hua. auto.
Qed.

(** C2: A user agent the test does not classify as mobile (an empty one
    included) gets exactly one new [_blank] window on
    [https://web.whatsapp.com/send?phone=917373675313&text=] followed by
    the encoded greeting. *)
Theorem handleWhatsAppClick_web table b :
  Regex.isMobile table (userAgent b) = false ->
  exists b', handleWhatsAppClick table b = Ok (tt, b') /\
    opened b' = opened b ++
      [(js "https://web.whatsapp.com/send?phone=917373675313&text=" ++ message_encoded,
        js "_blank")] /\
    location b' = location b /\ downloads b' = downloads b /\ body b' = body b.
Proof.
  intros Hua. eexists. split; [apply handleWhatsAppClick_run|].
  cbn [opened location downloads body]. rewrite Hua. auto.
Qed.

(** No button of the page throws when clicked, and every click keeps the
    browser state well formed. *)
Theorem onClick_safe table btn b :
  wf b -> exists b', onClick table btn b = Ok (tt, b') /\ wf b'.
Proof.
  intros Hwf. destruct btn; cbn [onClick].
  - eexists. split; [reflexivity|]. eapply setLocation_preserves; [exact Hwf | reflexivity].
  - eexists. split; [reflexivity|]. eapply setLocation_preserves; [exact Hwf | reflexivity].
  - eexists. split; [apply downloadResume_run, Hwf|].
    eapply downloadResume_preserves; [exact Hwf | apply downloadResume_run, Hwf].
  - eexists. split; [apply downloadResume_run, Hwf|].
    eapply downloadResume_preserves; [exact Hwf | apply downloadResume_run, Hwf].
  - eexists. split; [reflexivity|]. eapply windowOpen_preserves; [exact Hwf | reflexivity].
  - eexists. split; [reflexivity|]. eapply windowOpen_preserves; [exact Hwf | reflexivity].
  - eexists. split; [apply handleWhatsAppClick_run|]. exact Hwf.
Qed.

(** ** Witnesses *)

Definition windows_ua : jsstr := js "Mozilla/5.0 (Windows NT 10.0)".

Lemma handleWhatsAppClick_mobile_witness :
  (exists pre mid post p,
     userAgent (sample_browser Regex.iphone_ua true) = pre ++ mid ++ post /\
     In p Regex.mobile_patterns /\ Forall2 Regex.ci_equal mid p) /\
  exists b', handleWhatsAppClick Regex.no_table (sample_browser Regex.iphone_ua true) = Ok (tt, b') /\
    opened b' = [(js "whatsapp://send?phone=917373675313&text=" ++ message_encoded, js "_blank")] /\
    location b' = js "https://i-am-smf.github.io/" /\ downloads b' = [] /\ body b' = [1%positive].
Proof.
  assert (H : exists pre mid post p,
     userAgent (sample_browser Regex.iphone_ua true) = pre ++ mid ++ post /\
     In p Regex.mobile_patterns /\ Forall2 Regex.ci_equal mid p).
  { exists (js "Mozilla/5.0 ("), (js "iPhone"),
      (js "; CPU iPhone OS 17_0 like Mac OS X) AppleWebKit/605.1.15"), (js "iPhone").
    split; [reflexivity|]. split; [simpl; tauto|].
    repeat constructor; unfold Regex.ci_equal; split; (reflexivity || lia). }
  split; [exact H|]. apply (handleWhatsAppClick_mobile Regex.no_table _ H).
Defined.

Lemma handleWhatsAppClick_web_witness :
  Regex.isMobile Regex.no_table (userAgent (sample_browser windows_ua true)) = false /\
  exists b', handleWhatsAppClick Regex.no_table (sample_browser windows_ua true) = Ok (tt, b') /\
    opened b' = [(js "https://web.whatsapp.com/send?phone=917373675313&text=" ++ message_encoded,
                  js "_blank")] /\
    location b' = js "https://i-am-smf.github.io/" /\ downloads b' = [] /\ body b' = [1%positive].
Proof.
  split; [vm_compute; reflexivity|].
  apply (handleWhatsAppClick_web Regex.no_table (sample_browser windows_ua true)).
  vm_compute; reflexivity.
Defined.

Lemma downloadResume_spec_witness :
  wf (sample_browser windows_ua true) /\
  exists b', atsResumeClick (sample_browser windows_ua true) = Ok (tt, b') /\ wf b' /\
    downloads b' = [(js "/Shaik_Mohamed_Fahad_Resume_ATS.pdf", js "Shaik_Mohamed_Fahad_Resume_ATS.pdf")] /\
    body b' = [1%positive] /\ location b' = js "https://i-am-smf.github.io/" /\ opened b' = [].
Proof.
  split; [apply sample_browser_wf|]. apply downloadResume_spec. apply sample_browser_wf.
Defined.

Lemma downloadResume_repeat_witness :
  wf (sample_browser windows_ua true) /\
  exists b', dom_repeat 3 creativeResumeClick (sample_browser windows_ua true) = Ok (tt, b') /\
    wf b' /\
    downloads b' = repeat (js "/Shaik_Mohamed_Fahad_Resume.pdf", js "Shaik_Mohamed_Fahad_Resume.pdf") 3 /\
    body b' = [1%positive].
Proof.
  split; [apply sample_browser_wf|]. apply downloadResume_repeat. apply sample_browser_wf.
Defined.

End Handlers.
