(* ===== verification/Effects.v ===== *)
(** * The handlers' contract: observable effects

    The spec's external interfaces (section 6) describe every button by
    the one navigation it requests: a URI opened in a new browsing
    context, a navigation of the current one, or a download of a file
    under a name.  [Effect] is that vocabulary, [View] the part of the
    browser a user observes (location, opened windows, downloads,
    document body and the user agent), and [apply_effect] the meaning of
    an effect on it.  [button_effect] is the contract of each button, the
    WhatsApp button's depending on whether the client is mobile.

    The refinement theorem shows that the DOM-level handlers of
    [Handlers] implement the contract: the view after a click is the
    contract's effect applied to the view before it.  The anchor the
    resume buttons create stays in the element store (it is unreachable
    garbage), which is why the store is not part of the view. *)

From Stdlib Require Import ZArith String List.
From S2P Require Import Prelude Regex Browser Handlers.
Import ListNotations Browser Handlers.

Module Effects.

Inductive Effect :=
| OpenNew (url : jsstr)
| Navigate (url : jsstr)
| Download (path filename : jsstr).

Record View := {
  v_location : jsstr;
  v_opened : list (jsstr * jsstr);
  v_downloads : list (jsstr * jsstr);
  v_body : list positive;
  v_userAgent : jsstr
}.

Definition view (b : Browser) : View := {|
  v_location := location b; v_opened := opened b; v_downloads := downloads b;
  v_body := body b; v_userAgent := userAgent b |}.

Definition apply_effect (e : Effect) (v : View) : View :=
  match e with
  | OpenNew url =>
      {| v_location := v_location v; v_opened := v_opened v ++ [(url, js "_blank")];
         v_downloads := v_downloads v; v_body := v_body v; v_userAgent := v_userAgent v |}
  | Navigate url =>
      {| v_location := url; v_opened := v_opened v; v_downloads := v_downloads v;
         v_body := v_body v; v_userAgent := v_userAgent v |}
  | Download path filename =>
      {| v_location := v_location v; v_opened := v_opened v;
         v_downloads := v_downloads v ++ [(path, filename)];
         v_body := v_body v; v_userAgent := v_userAgent v |}
  end.

Lemma apply_effect_userAgent e v : v_userAgent (apply_effect e v) = v_userAgent v.
Proof. now destruct e. Qed.

(** The contract of each button, as the spec's section 6 lists them. *)
Definition button_effect (mobile : bool) (btn : Button) : Effect :=
  match btn with
  | HeroEmail | ContactEmail => Navigate (js "mailto:fahadguy8@gmail.com")
  | AtsResume => Download (js "/Shaik_Mohamed_Fahad_Resume_ATS.pdf")
                          (js "Shaik_Mohamed_Fahad_Resume_ATS.pdf")
  | CreativeResume => Download (js "/Shaik_Mohamed_Fahad_Resume.pdf")
                               (js "Shaik_Mohamed_Fahad_Resume.pdf")
  | DiscordButton => OpenNew (js "https://discord.gg/MGr2ZemqyE")
  | InstagramButton => OpenNew (js "https://www.instagram.com/i_am_smf_/")
  | WhatsAppButton =>
      OpenNew ((if mobile then js "whatsapp://send?phone=917373675313&text="
                else js "https://web.whatsapp.com/send?phone=917373675313&text=")
               ++ js "Hi%2C%20I'd%20like%20to%20connect%20with%20you!")
  end.

(** The case analysis that computes the view after each button's
    handler: [Hwf] is the well-formedness of the browser before the
    click, [E] the handler's result. *)
Ltac onClick_view_cases btn Hwf E :=
  destruct btn; cbn [onClick] in E;
    unfold heroEmailClick, contactEmailClick, atsResumeClick, creativeResumeClick,
      discordClick, instagramClick, setLocation, windowOpen, modify in E;
  [ now inv E | now inv E
  | rewrite downloadResume_run in E by exact Hwf; now inv E
  | rewrite downloadResume_run in E by exact Hwf; now inv E
  | now inv E | now inv E
  | rewrite handleWhatsAppClick_run in E; inv E; cbn;
    now destruct (Regex.isMobile _ (userAgent _)) ].

(** C5: Refinement: every button's handler succeeds on a well-formed
    browser, keeps it well formed, and changes what the user observes
    exactly as the button's contract says; the WhatsApp contract is
    chosen by the user-agent test. *)
Theorem onClick_refines table btn b :
  wf b ->
  exists b', onClick table btn b = Ok (tt, b') /\ wf b' /\
    view b' = apply_effect (button_effect (Regex.isMobile table (userAgent b)) btn) (view b).
Proof.
  intros Hwf. destruct (onClick_safe table btn b Hwf) as [b' [E W]].
  exists b'. split; [exact E|]. split; [exact W|]. onClick_view_cases btn Hwf E.
Qed.

(** The view after a successful click is the contract's effect applied
    to the view before it. *)
Lemma onClick_view table btn b b' :
  wf b -> onClick table btn b = Ok (tt, b') ->
  view b' = apply_effect (button_effect (Regex.isMobile table (userAgent b)) btn) (view b).
Proof. intros Hwf E. onClick_view_cases btn Hwf E. Qed.

Lemma onClick_refines_witness :
  wf (sample_browser Regex.iphone_ua true) /\
  exists b', onClick Regex.no_table WhatsAppButton (sample_browser Regex.iphone_ua true) = Ok (tt, b') /\
    wf b' /\
    view b' = apply_effect (button_effect (Regex.isMobile Regex.no_table Regex.iphone_ua) WhatsAppButton)
                (view (sample_browser Regex.iphone_ua true)).
Proof.
  split; [apply sample_browser_wf|]. apply onClick_refines. apply sample_browser_wf.
Defined.

End Effects.
