(* ===== verification/Markup.v ===== *)
(** * React elements

    The components of src/app/page.tsx return JSX, i.e. trees of React
    elements: a type (an HTML tag such as [h3], or a component such as
    [Card], [CardContent], [Button], [Link], [Badge], [Image] or
    [motion.div]), props, and children.  [Node] is that tree; the
    components of the UI kit and of framer-motion are kept as element
    types (they are imported, not defined in src/).  Prop values are the
    JavaScript values the JSX passes: strings, numbers (rationals, for
    [0.3] and [0.8]), booleans, object literals, and event handlers,
    which are named by what they do ([SetHovered] for the cards'
    [setIsHovered] closures, [OnClickButton] for the page's buttons). *)

From Stdlib Require Import ZArith QArith List String.
From S2P Require Import Prelude Handlers.
Import ListNotations.

#[local] Set Warnings "-register-all".

Module Markup.

Inductive Handler :=
| SetHovered (v : bool)
| OnClickButton (btn : Handlers.Button).

Inductive Value :=
| VStr (s : jsstr)
| VNum (q : Q)
| VBool (b : bool)
| VObj (fields : list (jsstr * Value))
| VHandler (h : Handler).

Inductive Node :=
| Text (s : jsstr)
| Elem (type : jsstr) (props : list (jsstr * Value)) (children : list Node).

(** A string prop, the most frequent kind. *)
Definition sprop (name value : string) : jsstr * Value := (js name, VStr (js value)).

Definition className (value : string) : jsstr * Value := sprop "className" value.

(** The value of a prop. *)
Fixpoint lookup_prop (name : jsstr) (props : list (jsstr * Value)) : option Value :=
  match props with
  | [] => None
  | (k, v) :: rest => if jsstr_eqb k name then Some v else lookup_prop name rest
  end.

Definition prop_of (name : jsstr) (n : Node) : option Value :=
  match n with
  | Elem _ props _ => lookup_prop name props
  | Text _ => None
  end.

(** The text content of a tree, in document order. *)
Fixpoint texts (n : Node) : list jsstr :=
  match n with
  | Text s => [s]
  | Elem _ _ children => (fix go (l : list Node) : list jsstr :=
                            match l with
                            | [] => []
                            | c :: l' => texts c ++ go l'
                            end) children
  end.

(** The elements of a tree, in document order. *)
Fixpoint elements (n : Node) : list Node :=
  match n with
  | Text _ => []
  | Elem _ _ children => n :: (fix go (l : list Node) : list Node :=
                                 match l with
                                 | [] => []
                                 | c :: l' => elements c ++ go l'
                                 end) children
  end.

(** The outline of a tree: each element's type and [href] prop, in
    document order. *)
Definition outline (n : Node) : list (jsstr * option Value) :=
  map (fun e => match e with
                | Elem t _ _ => (t, prop_of (js "href") e)
                | Text _ => ([], None)
                end) (elements n).

Lemma texts_Elem t p cs : texts (Elem t p cs) = List.concat (map texts cs).
Proof. simpl. induction cs as [|c cs IH]; simpl; [reflexivity|]. now rewrite IH. Qed.

Lemma elements_Elem t p cs :
  elements (Elem t p cs) = Elem t p cs :: List.concat (map elements cs).
Proof. simpl. f_equal. induction cs as [|c cs IH]; simpl; [reflexivity|]. now rewrite IH. Qed.

Lemma outline_Elem t p cs :
  outline (Elem t p cs) = (t, lookup_prop (js "href") p) :: List.concat (map outline cs).
Proof.
  unfold outline. rewrite elements_Elem. cbn [map prop_of]. f_equal.
  induction cs as [|c cs IH]; [reflexivity|]. cbn [map List.concat]. now rewrite map_app, IH.
Qed.

End Markup.
