(* ===== verification/Cards.v ===== *)
(** * The card components

    [ProjectCard], [EducationCard], [AchievementCard] and
    [CertificateCard] (src/app/page.tsx lines 52-183) as functions from
    their props and their one piece of state, the [isHovered] flag of
    [useState(false)], to the element tree they return.  The four share
    the root [Card] with the two pointer handlers and a [motion.div]
    whose animation target follows the flag; the three list cards render
    one row per item with [items.map((item, index) => ...)].

    [CardComponent] is the interface the page relies on: a render
    function; [CardLaws] states what every card promises (its root turns
    the flag on at [onMouseEnter] and off at [onMouseLeave]).  The hover
    state machine ([dispatch], [run]) is defined from the rendered
    handlers, as React runs them; its lemmas are proved once against the
    interface, the four instances discharge the laws by computing on the
    rendered trees, and the theorems are stated for the four cards. *)

From Stdlib Require Import ZArith QArith List String Lia Finite.
From S2P Require Import Prelude Content Handlers Markup.
Import ListNotations Markup.
Import Content.Project Content.Education Content.Achievement Content.Certificate.

Module Cards.

(** ** Shared parts *)

(** The root [Card] props (lines 57-59 in each card). *)
Definition cardProps : list (jsstr * Value) :=
  [className "relative overflow-hidden transition-all duration-300 ease-in-out";
   (js "onMouseEnter", VHandler (SetHovered true));
   (js "onMouseLeave", VHandler (SetHovered false))].

(** The detail panel: a [motion.div] fading and unfolding with the flag
    (lines 64-71 and the same block in each card). *)
Definition detailPanel (isHovered : bool) (children : list Node) : Node :=
  Elem (js "motion.div")
    [(js "initial", VObj [(js "opacity", VNum 0%Q); (js "height", VNum 0%Q)]);
     (js "animate", VObj [(js "opacity", VNum (if isHovered then 1%Q else 0%Q));
                          (js "height", if isHovered then VStr (js "auto") else VNum 0%Q)]);
     (js "transition", VObj [(js "duration", VNum (3 # 10))]);
     className "mb-4"]
    children.

(** ** ProjectCard *)

Definition ProjectCard (p : ProjectItem) (isHovered : bool) : Node :=
  Elem (js "Card") cardProps
    [Elem (js "CardContent") [className "pt-8 px-6 pb-16"]
       [Elem (js "h3") [className "text-xl font-semibold mb-3"] [Text (Project.title p)];
        Elem (js "p") [className "text-muted-foreground mb-4"] [Text (Project.description p)];
        detailPanel isHovered
          [Elem (js "p") [className "text-sm text-muted-foreground"] [Text (Project.details p)]];
        Elem (js "motion.div")
          [(js "initial", VObj [(js "opacity", VNum 0%Q); (js "y", VNum 20%Q)]);
           (js "animate", VObj [(js "opacity", VNum (if isHovered then 1%Q else 0%Q));
                                (js "y", VNum (if isHovered then 0%Q else 20%Q))]);
           (js "transition", VObj [(js "duration", VNum (3 # 10))]);
           className "mt-6"]
          [Elem (js "Link") [(js "href", VStr (sourceUrl p)); sprop "target" "_blank";
                             sprop "rel" "noopener noreferrer"]
             [Elem (js "Button") [sprop "variant" "outline";
                                  className "w-full bg-background text-foreground hover:bg-secondary"]
                [Text (js "View Source")]]]]].

(** ** The list cards *)

(** One row of [items.map((item, index) => <div key={index} ...>)]. *)
Definition row (index : nat) (first second : jsstr) : Node :=
  Elem (js "div") [(js "key", VNum (inject_Z (Z.of_nat index))); className "mb-3"]
    [Elem (js "p") [className "font-semibold"] [Text first];
     Elem (js "p") [className "text-sm text-muted-foreground"] [Text second]].

(** The layout the three list cards share: a header, the rows in the
    detail panel, and a link to the section's page. *)
Definition listCard (header : string) (rows : list Node) (href cta : string)
    (isHovered : bool) : Node :=
  Elem (js "Card") cardProps
    [Elem (js "CardContent") [className "pt-8 px-6 pb-6"]
       [Elem (js "h3") [className "text-xl font-semibold mb-4"] [Text (js header)];
        detailPanel isHovered rows;
        Elem (js "Link") [sprop "href" href]
          [Elem (js "Button") [className "w-full"] [Text (js cta)]]]].

Definition EducationCard (items : list EducationItem) (isHovered : bool) : Node :=
  listCard "View Education Details"
    (mapi (fun index item => row index (institution item) (degree item)) items)
    "/education" "Go to Education Page" isHovered.

Definition AchievementCard (items : list AchievementItem) (isHovered : bool) : Node :=
  listCard "View Achievements"
    (mapi (fun index item => row index (Achievement.title item) (event item)) items)
    "/achievements" "Go to Achievements Page" isHovered.

Definition CertificateCard (items : list CertificateItem) (isHovered : bool) : Node :=
  listCard "View Certificates"
    (mapi (fun index item => row index (Certificate.title item) (organization item)) items)
    "/certificates" "Go to Certificates Page" isHovered.

(** ** The card interface *)

Class CardComponent (Props : Type) := {
  render : Props -> bool -> Node
}.

#[export] Instance ProjectCard_component : CardComponent ProjectItem := {| render := ProjectCard |}.
#[export] Instance EducationCard_component : CardComponent (list EducationItem) :=
  {| render := EducationCard |}.
#[export] Instance AchievementCard_component : CardComponent (list AchievementItem) :=
  {| render := AchievementCard |}.
#[export] Instance CertificateCard_component : CardComponent (list CertificateItem) :=
  {| render := CertificateCard |}.

Inductive PointerEvent := MouseEnter | MouseLeave.

Definition event_prop (ev : PointerEvent) : jsstr :=
  match ev with
  | MouseEnter => js "onMouseEnter"
  | MouseLeave => js "onMouseLeave"
  end.

(** React runs the handler the rendered root holds for the event; a
    [setIsHovered(v)] handler makes [v] the next state. *)
Definition dispatch {Props} `{CardComponent Props} (p : Props) (isHovered : bool)
    (ev : PointerEvent) : bool :=
  match prop_of (event_prop ev) (render p isHovered) with
  | Some (VHandler (SetHovered v)) => v
  | _ => isHovered
  end.

Definition run {Props} `{CardComponent Props} (p : Props) (s : bool)
    (evs : list PointerEvent) : bool :=
  fold_left (dispatch p) evs s.

(** The flag a pointer event asks for. *)
Definition ev_value (ev : PointerEvent) : bool :=
  match ev with MouseEnter => true | MouseLeave => false end.

Class CardLaws (Props : Type) `{CardComponent Props} : Prop := {
  enter_sets : forall p h,
    prop_of (js "onMouseEnter") (render p h) = Some (VHandler (SetHovered true));
  leave_clears : forall p h,
    prop_of (js "onMouseLeave") (render p h) = Some (VHandler (SetHovered false))
}.

#[export] Instance ProjectCard_laws : CardLaws ProjectItem.
Proof. split; reflexivity. Qed.
#[export] Instance EducationCard_laws : CardLaws (list EducationItem).
Proof. split; reflexivity. Qed.
#[export] Instance AchievementCard_laws : CardLaws (list AchievementItem).
Proof. split; reflexivity. Qed.
#[export] Instance CertificateCard_laws : CardLaws (list CertificateItem).
Proof. split; reflexivity. Qed.

(** ** The hover state machine *)

Section Hover.
Context {Props : Type} `{CardLaws Props}.

Lemma dispatch_enter (p : Props) s : dispatch p s MouseEnter = true.
Proof. unfold dispatch. cbn [event_prop]. now rewrite enter_sets. Qed.

Lemma dispatch_leave (p : Props) s : dispatch p s MouseLeave = false.
Proof. unfold dispatch. cbn [event_prop]. now rewrite leave_clears. Qed.

Lemma run_snoc (p : Props) s evs ev : run p s (evs ++ [ev]) = dispatch p (run p s evs) ev.
Proof. unfold run. now rewrite fold_left_app. Qed.

Lemma dispatch_value (p : Props) s ev : dispatch p s ev = ev_value ev.
Proof. destruct ev; [apply dispatch_enter | apply dispatch_leave]. Qed.

Lemma run_last (p : Props) s evs ev : run p s (evs ++ [ev]) = ev_value ev.
Proof. rewrite run_snoc. apply dispatch_value. Qed.

End Hover.

(** C12: For each of the four cards of the page, after any sequence of
    pointer events the flag is given by the last event alone: [true]
    after [onMouseEnter], [false] after [onMouseLeave], whatever the
    props and the state before. *)
Theorem hover_last_event :
  (forall (p : ProjectItem) s evs ev, run p s (evs ++ [ev]) = ev_value ev) /\
  (forall (items : list EducationItem) s evs ev, run items s (evs ++ [ev]) = ev_value ev) /\
  (forall (items : list AchievementItem) s evs ev, run items s (evs ++ [ev]) = ev_value ev) /\
  (forall (items : list CertificateItem) s evs ev, run items s (evs ++ [ev]) = ev_value ev).
Proof. repeat split; intros; apply run_last. Qed.

(** ** What the cards render *)

(** The tree without its [animate] props: what does not depend on the
    animation targets. *)
Fixpoint strip_animate (n : Node) : Node :=
  match n with
  | Text s => Text s
  | Elem t props cs =>
      Elem t (filter (fun kv => negb (jsstr_eqb (fst kv) (js "animate"))) props)
        (map strip_animate cs)
  end.

(** C10: The hover flag changes nothing but the [animate] targets of the
    [motion.div]s: with those removed, each card renders the same tree
    hovered and not hovered (the detail text and the links included). *)
Theorem hover_only_animates p items_e items_a items_c :
  strip_animate (ProjectCard p true) = strip_animate (ProjectCard p false) /\
  strip_animate (EducationCard items_e true) = strip_animate (EducationCard items_e false) /\
  strip_animate (AchievementCard items_a true) = strip_animate (AchievementCard items_a false) /\
  strip_animate (CertificateCard items_c true) = strip_animate (CertificateCard items_c false).
Proof. repeat split; reflexivity. Qed.

Lemma listCard_texts header rows href cta h :
  texts (listCard header rows href cta h) =
  js header :: List.concat (map texts rows) ++ [js cta].
Proof.
  unfold listCard, detailPanel.
  repeat (rewrite texts_Elem; cbn [map List.concat]). rewrite !app_nil_r. reflexivity.
Qed.

Lemma texts_rows {A} (f g : A -> jsstr) i items :
  List.concat (map texts (mapi_from i (fun index item => row index (f item) (g item)) items)) =
  List.concat (map (fun item => [f item; g item]) items).
Proof.
  revert i; induction items as [|x items IH]; intros i; [reflexivity|].
  cbn [mapi_from map List.concat]. rewrite IH. reflexivity.
Qed.

(** C21: A project card's text is its title, description and details and
    the label "View Source", hovered or not. *)
Theorem ProjectCard_texts p h :
  texts (ProjectCard p h) =
  [Project.title p; Project.description p; Project.details p; js "View Source"].
Proof. reflexivity. Qed.

(** The outline of a list card with [n] rows: the card, its content, the
    header, the detail panel, three elements per row, and the call to
    action, a [Link] to [href] around a [Button]. *)
Definition list_outline (href : string) (n : nat) : list (jsstr * option Value) :=
  [(js "Card", None); (js "CardContent", None); (js "h3", None); (js "motion.div", None)] ++
  List.concat (repeat [(js "div", None); (js "p", None); (js "p", None)] n) ++
  [(js "Link", Some (VStr (js href))); (js "Button", None)].

Lemma listCard_outline header rows href cta h :
  outline (listCard header rows href cta h) =
  [(js "Card", None); (js "CardContent", None); (js "h3", None); (js "motion.div", None)] ++
  List.concat (map outline rows) ++
  [(js "Link", Some (VStr (js href))); (js "Button", None)].
Proof.
  unfold listCard, detailPanel. rewrite !outline_Elem. cbn [map List.concat].
  rewrite outline_Elem. cbn [map List.concat]. rewrite !outline_Elem. cbn [map List.concat].
  rewrite !outline_Elem. cbn [map List.concat]. rewrite !app_nil_r. reflexivity.
Qed.

Lemma outline_rows {A} (f g : A -> jsstr) i items :
  List.concat (map outline (mapi_from i (fun index item => row index (f item) (g item)) items)) =
  List.concat (repeat [(js "div", None); (js "p", None); (js "p", None)] (List.length items)).
Proof.
  revert i; induction items as [|x items IH]; intros i; [reflexivity|].
  cbn [mapi_from map List.concat List.length repeat]. rewrite IH. reflexivity.
Qed.

(** C11: What a list card renders, for any list, the empty one included:
    its text is the header, the two shown fields of each item in order,
    and the call to action; its elements are the card's frame, three
    per row ([div], [p], [p]), and the one link, to the section's page.
    So the education [duration], the achievement [date], and the
    certificate [date], [details], [link] and [image] are never rendered:
    no other text, link or image element is in the tree. *)
Theorem listCards_render items_e items_a items_c h :
  texts (EducationCard items_e h) =
    js "View Education Details" ::
    List.concat (map (fun it => [institution it; degree it]) items_e) ++
    [js "Go to Education Page"] /\
  outline (EducationCard items_e h) = list_outline "/education" (List.length items_e) /\
  texts (AchievementCard items_a h) =
    js "View Achievements" ::
    List.concat (map (fun it => [Achievement.title it; event it]) items_a) ++
    [js "Go to Achievements Page"] /\
  outline (AchievementCard items_a h) = list_outline "/achievements" (List.length items_a) /\
  texts (CertificateCard items_c h) =
    js "View Certificates" ::
    List.concat (map (fun it => [Certificate.title it; organization it]) items_c) ++
    [js "Go to Certificates Page"] /\
  outline (CertificateCard items_c h) = list_outline "/certificates" (List.length items_c).
Proof.
  unfold EducationCard, AchievementCard, CertificateCard, mapi, list_outline.
  rewrite !listCard_texts, !texts_rows, !listCard_outline, !outline_rows. auto 10.
Qed.



End Cards.
