(* ===== verification/Page.v ===== *)
(** * The page composer

    [Page] (src/app/page.tsx lines 293-536) returns the section tree of
    the portfolio: the hero, the about section with the contact and
    skills cards and the resume buttons, the projects, certificates,
    education and achievements sections (each mounting card instances),
    the footer, and the floating buttons.  [Page] here renders that tree
    with the card instances expanded by [Cards], given the state of every
    instance ([PageState]: one [isHovered] flag per mounted card) and the
    footer year ([new Date().getFullYear()], an input).

    A click on an element of the rendered page runs the [onClick]
    handlers of the element and of its ancestors, innermost first (the
    event bubbles), then the activation behaviour of the nearest [Link]
    (an [<a>]): a new browsing context for [target="_blank"], otherwise a
    navigation of the current one.  The nearest [Link] is taken even when
    the click lands in a [Button] nested in it (lines 78-79, 113-114,
    307-315): browsers follow such links, although the DOM standard's
    dispatch would name the button as the activation target.  Pointer
    events on a card instance go to that instance's [Cards.dispatch]. *)

From Stdlib Require Import ZArith QArith List String Lia DecimalZ.
From stdpp Require Import base list.
From S2P Require Import Prelude Content Regex Browser Handlers Effects Markup Cards.
Import ListNotations Markup Browser Effects.Effects Cards.Cards.
Import Content.Project Content.Education Content.Achievement Content.Certificate.

Module Page.

(** ** Building blocks *)

Definition el (type : string) (props : list (jsstr * Value)) (children : list Node) : Node :=
  Elem (js type) props children.

Definition txt (s : string) : Node := Text (js s).

(** A [lucide-react] icon with its class names. *)
Definition icon (name cls : string) : Node := el name [className cls] [].

Definition onClickProp (btn : Handlers.Button) : jsstr * Value :=
  (js "onClick", VHandler (OnClickButton btn)).

(** The [motion.div] wrapping the content of each section below the hero
    ([initial={{ opacity: 0 }} whileInView={{ opacity: 1 }}]). *)
Definition inView (children : list Node) : Node :=
  el "motion.div"
    [(js "initial", VObj [(js "opacity", VNum 0%Q)]);
     (js "whileInView", VObj [(js "opacity", VNum 1%Q)]);
     (js "transition", VObj [(js "duration", VNum (8 # 10))]);
     className "w-full max-w-7xl mx-auto px-4 md:px-6"]
    children.

(** ** Hero section (lines 296-326) *)

Definition heroSection : Node :=
  el "section" [className "relative min-h-screen flex items-center justify-center overflow-hidden px-4"]
    [el "div" [className "absolute inset-0 z-0 bg-gradient-to-b from-background to-background/50"] [];
     el "motion.div"
       [(js "initial", VObj [(js "opacity", VNum 0%Q); (js "y", VNum 20%Q)]);
        (js "animate", VObj [(js "opacity", VNum 1%Q); (js "y", VNum 0%Q)]);
        (js "transition", VObj [(js "duration", VNum (8 # 10))]);
        className "w-full max-w-7xl mx-auto relative z-10 text-center px-4 md:px-6"]
       [el "h1" [className "text-3xl md:text-4xl lg:text-6xl font-bold mb-4"]
          [txt "SHAIK MOHAMED FAHAD .T"];
        el "h2" [className "text-lg md:text-xl lg:text-2xl text-muted-foreground mb-8"]
          [txt "Python Developer"];
        el "div" [className "flex justify-center gap-4"]
          [el "Link" [sprop "href" "https://github.com/i-am-smf"; sprop "target" "_blank"]
             [el "Button" [sprop "variant" "outline"; sprop "size" "icon"]
                [icon "Github" "h-5 w-5"]];
           el "Link" [sprop "href" "https://www.linkedin.com/in/shaik-mohamed-fahad-826971178";
                      sprop "target" "_blank"]
             [el "Button" [sprop "variant" "outline"; sprop "size" "icon"]
                [icon "Linkedin" "h-5 w-5"]];
           el "Button" [sprop "variant" "outline"; sprop "size" "icon";
                        onClickProp Handlers.HeroEmail; sprop "aria-label" "Send email"]
             [icon "Mail" "h-5 w-5"]]]].

(** ** About section (lines 329-432) *)

(** The paragraph of lines 338-343: JSX joins its four source lines with
    single spaces. *)
Definition aboutText : string :=
  "I'm a Python Developer with 6 months of experience in software application development. I excel at solving problems and creating innovative solutions, such as developing APIs, automated bots, and secure communications systems. I'm quick to learn new technologies and thrive in fast-paced environments. Passionate about coding, I constantly seek to improve my skills and embrace new challenges.".

Definition contactCard : Node :=
  el "Card" []
    [el "CardContent" [className "pt-8 px-6 pb-6"]
       [el "h3" [className "text-xl font-semibold mb-4"] [txt "Contact Information"];
        el "div" [className "space-y-4"]
          [el "div" [className "flex items-center gap-2"]
             [icon "Phone" "h-5 w-5 text-muted-foreground"; el "span" [] [txt "+91 73736 75313"]];
           el "div" [className "flex items-center gap-2"]
             [icon "Mail" "h-5 w-5 text-muted-foreground";
              el "Button" [sprop "variant" "link"; className "p-0 h-auto font-normal";
                           onClickProp Handlers.ContactEmail]
                [txt "fahadguy8@gmail.com"]];
           el "div" [className "flex items-center gap-2"]
             [icon "MapPin" "h-5 w-5 text-muted-foreground"; el "span" [] [txt "Chennai, Tamil Nadu"]]]]].

Definition skills : list string := ["Python"; "Git"; "GitHub"; "SQL"; "AWS"]%string.

Definition skillsCard : Node :=
  el "Card" []
    [el "CardContent" [className "pt-8 px-6 pb-6"]
       [el "h3" [className "text-xl font-semibold mb-4"] [txt "Skills"];
        el "div" [className "flex flex-wrap gap-2"] (map (fun s => el "Badge" [] [txt s]) skills)]].

Definition resumeButtons : Node :=
  el "div" [className "mt-8 flex justify-center lg:justify-start gap-4"]
    [el "Button" [onClickProp Handlers.AtsResume; className "flex items-center gap-2"]
       [icon "Download" "h-4 w-4"; txt "ATS Resume"];
     el "Button" [onClickProp Handlers.CreativeResume; sprop "variant" "outline";
                  className "flex items-center gap-2"]
       [icon "Download" "h-4 w-4"; txt "Creative Resume"]].

Definition profilePhoto : Node :=
  el "div" [className "relative aspect-square w-full max-w-md mx-auto lg:mx-0"]
    [el "div" [className "absolute inset-0 rounded-xl overflow-hidden"]
       [el "Image"
          [sprop "src" "https://hebbkx1anhila5yf.public.blob.vercel-storage.com/IMG_20230317_123617.jpg-PUBHZyiKZyhhJvIQ1qbsKYIqbGHpkz.jpeg";
           sprop "alt" "Profile photo in a tea plantation"; (js "fill", VBool true);
           className "object-cover"; (js "priority", VBool true)] []];
     el "div" [className "absolute inset-0 bg-gradient-to-t from-background/80 to-background/0 rounded-xl"] []].

Definition aboutSection : Node :=
  el "section" [className "py-16 md:py-20 bg-muted/30"]
    [inView
       [el "div" [className "grid grid-cols-1 lg:grid-cols-2 gap-12 items-start lg:items-center max-w-6xl mx-auto"]
          [el "div" [className "text-center lg:text-left"]
             [el "h2" [className "text-3xl font-bold mb-8"] [txt "About Me"];
              el "p" [className "text-lg text-muted-foreground mb-12 leading-relaxed max-w-2xl mx-auto lg:mx-0"]
                [txt aboutText];
              el "div" [className "grid grid-cols-1 md:grid-cols-2 gap-8"] [contactCard; skillsCard];
              resumeButtons];
           profilePhoto]]].

(** ** Card sections (lines 436-486) *)

(** The state of the mounted card instances: one [useState(false)] flag
    per [ProjectCard key={index}] (in [projectsData] order) and one for
    each list card. *)
Record PageState := {
  projectHovered : list bool;
  certificatesHovered : bool;
  educationHovered : bool;
  achievementsHovered : bool
}.

(** Every instance is mounted with [useState(false)]. *)
Definition initialState : PageState := {|
  projectHovered := map (fun _ => false) projectsData;
  certificatesHovered := false; educationHovered := false; achievementsHovered := false |}.

Definition projectsSection (st : PageState) : Node :=
  el "section" [className "py-16 md:py-20"]
    [inView
       [el "h2" [className "text-3xl font-bold mb-8 text-center"] [txt "Projects"];
        el "div" [className "grid grid-cols-1 md:grid-cols-2 lg:grid-cols-3 gap-6 max-w-6xl mx-auto"]
          (mapi (fun index project =>
                   Cards.ProjectCard project (nth index (projectHovered st) false))
                projectsData)]].

Definition certificatesSection (st : PageState) : Node :=
  el "section" [className "py-16 md:py-20"]
    [inView
       [el "div" [className "grid grid-cols-1 md:grid-cols-2 lg:grid-cols-3 gap-12 max-w-6xl mx-auto"]
          [el "div" [className "lg:col-span-3"]
             [el "h2" [className "text-3xl font-bold mb-8 text-center lg:text-left"] [txt "Certificates"];
              Cards.CertificateCard certificatesData (certificatesHovered st)]]]].

Definition educationSection (st : PageState) : Node :=
  el "section" [className "py-16 md:py-20 bg-muted/30"]
    [inView
       [el "div" [className "grid grid-cols-1 md:grid-cols-2 gap-12 max-w-6xl mx-auto"]
          [el "div" []
             [el "h2" [className "text-3xl font-bold mb-8 text-center md:text-left"] [txt "Education"];
              Cards.EducationCard educationData (educationHovered st)];
           el "div" []
             [el "h2" [className "text-3xl font-bold mb-8 text-center md:text-left"] [txt "Achievements"];
              Cards.AchievementCard achievementsData (achievementsHovered st)]]]].

(** ** Footer (lines 489-508) *)

(** [Number.prototype.toString] on an integer: its decimal digits, with a
    minus sign when negative. *)
Fixpoint digit_char (d : Decimal.uint) : jsstr :=
  match d with
  | Decimal.Nil => []
  | Decimal.D0 d => 48 :: digit_char d | Decimal.D1 d => 49 :: digit_char d
  | Decimal.D2 d => 50 :: digit_char d | Decimal.D3 d => 51 :: digit_char d
  | Decimal.D4 d => 52 :: digit_char d | Decimal.D5 d => 53 :: digit_char d
  | Decimal.D6 d => 54 :: digit_char d | Decimal.D7 d => 55 :: digit_char d
  | Decimal.D8 d => 56 :: digit_char d | Decimal.D9 d => 57 :: digit_char d
  end%Z.

Definition Number_toString (z : Z) : jsstr :=
  match Z.to_int z with
  | Decimal.Pos d => digit_char d
  | Decimal.Neg d => js "-" ++ digit_char d
  end.

(** The copyright line: [© {new Date().getFullYear()} Shaik ...]; JSX
    keeps the space after the sign and the one before the name. *)
Definition copyright (year : Z) : list Node :=
  [Text ([169%Z] ++ js " "); Text (Number_toString year);
   txt " Shaik Mohamed Fahad. All rights reserved."].

Definition footer (year : Z) : Node :=
  el "footer" [className "py-8 bg-muted/50"]
    [el "div" [className "container mx-auto px-4"]
       [el "div" [className "flex flex-col md:flex-row justify-between items-center"]
          [el "p" [className "text-sm text-muted-foreground mb-4 md:mb-0"] (copyright year);
           el "p" [className "text-sm text-muted-foreground"]
             [txt "Developed and maintained by ";
              el "span" [className "font-semibold"] [txt "i_am_smf_.py"]; txt " ";
              el "span" [className "text-muted-foreground"] [txt "using"]; txt " ";
              el "Link" [sprop "href" "https://v0.dev"; sprop "target" "_blank";
                         sprop "rel" "noopener noreferrer"; className "text-primary hover:underline"]
                [txt "v0.dev"]]]]].

(** ** Floating buttons (lines 511-533) *)

Definition floatingButtons : Node :=
  el "div" [className "fixed bottom-4 right-4 flex flex-col gap-4"]
    [el "Button" [onClickProp Handlers.DiscordButton;
                  className "rounded-full p-4 bg-[#5865F2] hover:opacity-90 transition-opacity duration-200 shadow-lg";
                  sprop "aria-label" "Join Discord Server"]
       [icon "Discord" "h-6 w-6 text-white"];
     el "Button" [onClickProp Handlers.InstagramButton;
                  className "rounded-full p-4 bg-gradient-to-tr from-yellow-500 via-pink-500 to-purple-500 hover:opacity-90 transition-opacity duration-200 shadow-lg";
                  sprop "aria-label" "Follow on Instagram"]
       [icon "Instagram" "h-6 w-6 text-white"];
     el "Button" [onClickProp Handlers.WhatsAppButton;
                  className "rounded-full p-4 bg-green-500 hover:bg-green-600 transition-colors duration-200 shadow-lg";
                  sprop "aria-label" "Contact on WhatsApp"]
       [icon "MessageCircle" "h-6 w-6 text-white"]].

(** ** The page *)

Definition Page (year : Z) (st : PageState) : Node :=
  el "div" [className "min-h-screen bg-background text-foreground"]
    [heroSection; aboutSection; projectsSection st; certificatesSection st;
     educationSection st; footer year; floatingButtons].

(** ** Clicks *)

(** What a click does: run the handler of a button, or follow a link. *)
Inductive Action :=
| RunHandler (btn : Handlers.Button)
| FollowLink (href : jsstr) (target : option jsstr).

(** Each element of a tree with its ancestors, innermost first, in
    document order: the propagation path of an event targeted at it. *)
Fixpoint chains (ancestors : list Node) (n : Node) : list (list Node) :=
  match n with
  | Text _ => []
  | Elem _ _ children =>
      (n :: ancestors) :: (fix go (l : list Node) : list (list Node) :=
                             match l with
                             | [] => []
                             | c :: l' => chains (n :: ancestors) c ++ go l'
                             end) children
  end.

Definition handler_of (n : Node) : list Action :=
  match prop_of (js "onClick") n with
  | Some (VHandler (OnClickButton btn)) => [RunHandler btn]
  | _ => []
  end.

(** [next/link] renders an [<a>]. *)
Definition is_link (n : Node) : bool :=
  match n with
  | Elem type _ _ => jsstr_eqb type (js "Link")
  | Text _ => false
  end.

Definition link_action (n : Node) : list Action :=
  match prop_of (js "href") n with
  | Some (VStr h) =>
      [FollowLink h (match prop_of (js "target") n with Some (VStr t) => Some t | _ => None end)]
  | _ => []
  end.

(** The [onClick] handlers along the propagation path, innermost first,
    then the activation behaviour of the nearest anchor. *)
Definition click_actions (path : list Node) : list Action :=
  flat_map handler_of path ++
  match List.find is_link path with
  | Some a => link_action a
  | None => []
  end.

Local Open Scope dom_scope.

Definition perform (table : Z -> option Z) (a : Action) : DOM unit :=
  match a with
  | RunHandler btn => Handlers.onClick table btn
  | FollowLink h (Some t) =>
      if jsstr_eqb t (js "_blank") then windowOpen h (js "_blank") else setLocation h
  | FollowLink h None => setLocation h
  end.

Definition run_actions (table : Z -> option Z) (l : list Action) : DOM unit :=
  fold_right (fun a k => perform table a ;;; k) (dom_ret tt) l.

(** ** Pointer events and the page's steps *)

Inductive CardRef :=
| ProjectAt (index : nat) | CertificatesRef | EducationRef | AchievementsRef.

Inductive UIEvent :=
| PointerOn (c : CardRef) (ev : Cards.PointerEvent)
| ClickOn (element : nat).

(** The instance's own handler decides its next state ([Cards.dispatch]);
    an index with no mounted card changes nothing. *)
Definition pointer (st : PageState) (c : CardRef) (ev : Cards.PointerEvent) : PageState :=
  match c with
  | ProjectAt i =>
      match nth_error projectsData i with
      | Some p =>
          {| projectHovered :=
               <[i := Cards.dispatch p (nth i (projectHovered st) false) ev]> (projectHovered st);
             certificatesHovered := certificatesHovered st;
             educationHovered := educationHovered st;
             achievementsHovered := achievementsHovered st |}
      | None => st
      end
  | CertificatesRef =>
      {| projectHovered := projectHovered st;
         certificatesHovered := Cards.dispatch certificatesData (certificatesHovered st) ev;
         educationHovered := educationHovered st;
         achievementsHovered := achievementsHovered st |}
  | EducationRef =>
      {| projectHovered := projectHovered st;
         certificatesHovered := certificatesHovered st;
         educationHovered := Cards.dispatch educationData (educationHovered st) ev;
         achievementsHovered := achievementsHovered st |}
  | AchievementsRef =>
      {| projectHovered := projectHovered st;
         certificatesHovered := certificatesHovered st;
         educationHovered := educationHovered st;
         achievementsHovered := Cards.dispatch achievementsData (achievementsHovered st) ev |}
  end.

(** One step of the page: a pointer event changes the hovered card's
    state, a click on the [k]-th element of the rendered page performs its
    actions on the browser (a click outside every element does nothing). *)
Definition page_step (table : Z -> option Z) (year : Z) (st : PageState) (b : Browser)
    (e : UIEvent) : result (PageState * Browser) :=
  match e with
  | PointerOn c ev => Ok (pointer st c ev, b)
  | ClickOn k =>
      match nth_error (chains [] (Page year st)) k with
      | Some path => res_map (fun r => (st, snd r)) (run_actions table (click_actions path) b)
      | None => Ok (st, b)
      end
  end.

(** The contract of an action: a handler's button contract, or the
    link's navigation. *)
Definition action_effect (mobile : bool) (a : Action) : Effect :=
  match a with
  | RunHandler btn => button_effect mobile btn
  | FollowLink h (Some t) => if jsstr_eqb t (js "_blank") then OpenNew h else Navigate h
  | FollowLink h None => Navigate h
  end.

(** The effects of a click on the [k]-th element of the page. *)
Definition click_effects (mobile : bool) (year : Z) (st : PageState) (k : nat) : list Effect :=
  match nth_error (chains [] (Page year st)) k with
  | Some path => map (action_effect mobile) (click_actions path)
  | None => []
  end.

(** What the page's elements can do, as contracts, in document order:
    the GitHub and LinkedIn profiles, the hero's and the contact card's
    e-mail address, the two resumes, the projects' sources, the three
    list cards' pages, v0.dev, Discord, Instagram and WhatsApp. *)
Definition page_effects (mobile : bool) : list Effect :=
  [OpenNew (js "https://github.com/i-am-smf");
   OpenNew (js "https://www.linkedin.com/in/shaik-mohamed-fahad-826971178");
   Navigate (js "mailto:fahadguy8@gmail.com");
   Download (js "/Shaik_Mohamed_Fahad_Resume_ATS.pdf") (js "Shaik_Mohamed_Fahad_Resume_ATS.pdf");
   Download (js "/Shaik_Mohamed_Fahad_Resume.pdf") (js "Shaik_Mohamed_Fahad_Resume.pdf")]
  ++ map (fun p => OpenNew (sourceUrl p)) projectsData
  ++ [Navigate (js "/certificates"); Navigate (js "/education"); Navigate (js "/achievements");
      OpenNew (js "https://v0.dev"); OpenNew (js "https://discord.gg/MGr2ZemqyE");
      OpenNew (js "https://www.instagram.com/i_am_smf_/");
      OpenNew ((if mobile then js "whatsapp://send?phone=917373675313&text="
                else js "https://web.whatsapp.com/send?phone=917373675313&text=")
               ++ js "Hi%2C%20I'd%20like%20to%20connect%20with%20you!")].

(** ** Reading the year back *)

(** The inverse of [digit_char]: the decimal digits of a string. *)
Fixpoint uint_of_chars (s : jsstr) : option Decimal.uint :=
  match s with
  | [] => Some Decimal.Nil
  | c :: r =>
      match uint_of_chars r with
      | None => None
      | Some d =>
          if (c =? 48)%Z then Some (Decimal.D0 d) else if (c =? 49)%Z then Some (Decimal.D1 d)
          else if (c =? 50)%Z then Some (Decimal.D2 d) else if (c =? 51)%Z then Some (Decimal.D3 d)
          else if (c =? 52)%Z then Some (Decimal.D4 d) else if (c =? 53)%Z then Some (Decimal.D5 d)
          else if (c =? 54)%Z then Some (Decimal.D6 d) else if (c =? 55)%Z then Some (Decimal.D7 d)
          else if (c =? 56)%Z then Some (Decimal.D8 d) else if (c =? 57)%Z then Some (Decimal.D9 d)
          else None
      end
  end.

(** A reader's parse of an integer literal (an optional minus sign and
    decimal digits), as [Number(...)] reads it. *)
Definition Number_parse (s : jsstr) : option Z :=
  match s with
  | 45%Z :: r => option_map (fun d => Z.of_int (Decimal.Neg d)) (uint_of_chars r)
  | _ => option_map (fun d => Z.of_int (Decimal.Pos d)) (uint_of_chars s)
  end.

(** ** Runs *)

#[export] Instance CardRef_eq_dec : EqDecision CardRef.
Proof. solve_decision. Defined.

Fixpoint page_run (table : Z -> option Z) (year : Z) (st : PageState) (b : Browser)
    (evs : list UIEvent) : result (PageState * Browser) :=
  match evs with
  | [] => Ok (st, b)
  | e :: evs' =>
      res_bind (page_step table year st b e) (fun r => page_run table year (fst r) (snd r) evs')
  end.

(** The hover flag of a mounted card. *)
Definition hovered (st : PageState) (c : CardRef) : bool :=
  match c with
  | ProjectAt i => nth i (projectHovered st) false
  | CertificatesRef => certificatesHovered st
  | EducationRef => educationHovered st
  | AchievementsRef => achievementsHovered st
  end.

(** A card that the page mounts. *)
Definition mounted (c : CardRef) : Prop :=
  match c with
  | ProjectAt i => i < List.length projectsData
  | _ => True
  end.

(** The last pointer event a card received, if any. *)
Definition last_step (c : CardRef) (acc : option Cards.PointerEvent) (e : UIEvent)
    : option Cards.PointerEvent :=
  match e with
  | PointerOn c' ev => if decide (c = c') then Some ev else acc
  | ClickOn _ => acc
  end.

Definition last_pointer (c : CardRef) (evs : list UIEvent) : option Cards.PointerEvent :=
  fold_left (last_step c) evs None.

(** The list of actions the page's elements can perform, in document
    order. *)
Definition page_actions : list Action :=
  [FollowLink (js "https://github.com/i-am-smf") (Some (js "_blank"));
   FollowLink (js "https://www.linkedin.com/in/shaik-mohamed-fahad-826971178") (Some (js "_blank"));
   RunHandler Handlers.HeroEmail; RunHandler Handlers.ContactEmail;
   RunHandler Handlers.AtsResume; RunHandler Handlers.CreativeResume]
  ++ map (fun p => FollowLink (sourceUrl p) (Some (js "_blank"))) projectsData
  ++ [FollowLink (js "/certificates") None; FollowLink (js "/education") None;
      FollowLink (js "/achievements") None; FollowLink (js "https://v0.dev") (Some (js "_blank"));
      RunHandler Handlers.DiscordButton; RunHandler Handlers.InstagramButton;
      RunHandler Handlers.WhatsAppButton].

#[export] Instance Button_eq_dec : EqDecision Handlers.Button.
Proof. solve_decision. Defined.

#[export] Instance Action_eq_dec : EqDecision Action.
Proof. solve_decision. Defined.

#[export] Instance Effect_eq_dec : EqDecision Effect.
Proof. solve_decision. Defined.

(** ** What the page's elements do *)

(** The click behaviour of the page depends neither on the cards' hover
    state nor on the year: both only reach animation targets and text. *)
Lemma click_actions_state_independent year st :
  map click_actions (chains [] (Page year st)) =
  map click_actions (chains [] (Page 0 initialState)).
Proof. vm_compute. reflexivity. Qed.

(** C7: Every element of the rendered page, in every hover state and
    for every year, performs at most one action when clicked, and that
    action is one of [page_actions]: the GitHub and LinkedIn profiles in
    a new tab, the two [mailto:] buttons, the two resume downloads, the
    four projects' sources in a new tab, the three list cards' pages in
    the same tab, v0.dev in a new tab, and the Discord, Instagram and
    WhatsApp buttons.  Each of these actions is performed by some
    element: no button is nested in a link or another button. *)
Theorem page_click_actions year st :
  Forall (fun l => List.length l <= 1 /\ Forall (fun a => a ∈ page_actions) l)
         (map click_actions (chains [] (Page year st))) /\
  Forall (fun a => [a] ∈ map click_actions (chains [] (Page year st))) page_actions.
Proof.
  rewrite click_actions_state_independent.
  apply (bool_decide_unpack _). vm_compute. reflexivity.
Qed.

(** ** Safety of the page's steps *)

Lemma perform_safe table a b :
  wf b -> exists b', perform table a b = Ok (tt, b') /\ wf b'.
Proof.
  intros Hwf. destruct a as [btn|h [t|]]; cbn [perform].
  - now apply Handlers.onClick_safe.
  - destruct (jsstr_eqb t (js "_blank")); eexists; split; try reflexivity.
    + eapply windowOpen_preserves; [exact Hwf | reflexivity].
    + eapply setLocation_preserves; [exact Hwf | reflexivity].
  - eexists. split; [reflexivity|]. eapply setLocation_preserves; [exact Hwf | reflexivity].
Qed.

Lemma run_actions_safe table l b :
  wf b -> exists b', run_actions table l b = Ok (tt, b') /\ wf b'.
Proof.
  revert b; induction l as [|a l IH]; intros b Hwf; [now exists b|].
  destruct (perform_safe table a b Hwf) as [b1 [E1 W1]].
  destruct (IH b1 W1) as [b2 [E2 W2]].
  exists b2. cbn [run_actions fold_right]. unfold dom_bind. rewrite E1. split; [exact E2 | exact W2].
Qed.

Lemma perform_view table a b b' :
  wf b -> perform table a b = Ok (tt, b') ->
  view b' = apply_effect (action_effect (Regex.isMobile table (userAgent b)) a) (view b).
Proof.
  intros Hwf E. destruct a as [btn|h [t|]]; cbn [perform action_effect] in *.
  - eapply onClick_view; eassumption.
  - destruct (jsstr_eqb t (js "_blank")); unfold windowOpen, setLocation, modify in E; now inv E.
  - unfold setLocation, modify in E. now inv E.
Qed.

Lemma run_actions_view table l b :
  wf b ->
  exists b', run_actions table l b = Ok (tt, b') /\ wf b' /\
    view b' = fold_left (fun v e => apply_effect e v)
                (map (action_effect (Regex.isMobile table (userAgent b))) l) (view b).
Proof.
  revert b; induction l as [|a l IH]; intros b Hwf; [now exists b|].
  destruct (perform_safe table a b Hwf) as [b1 [E1 W1]].
  pose proof (perform_view table a b b1 Hwf E1) as V1.
  assert (U : userAgent b1 = userAgent b)
    by (apply (f_equal v_userAgent) in V1; now rewrite apply_effect_userAgent in V1).
  destruct (IH b1 W1) as [b2 [E2 [W2 V2]]].
  exists b2. cbn [run_actions fold_right]. unfold dom_bind. rewrite E1.
  split; [exact E2|]. split; [exact W2|]. rewrite V2, U, V1. reflexivity.
Qed.

(** ** Pointer events *)

(** One flag per project card. *)
Definition flags_ok (st : PageState) : Prop :=
  List.length (projectHovered st) = List.length projectsData.

Lemma pointer_flags_ok st c ev : flags_ok st -> flags_ok (pointer st c ev).
Proof.
  unfold flags_ok. destruct c as [i| | |]; cbn [pointer]; auto.
  destruct (nth_error projectsData i); cbn [projectHovered]; [rewrite length_insert|]; auto.
Qed.

Lemma hovered_pointer st c c' ev :
  flags_ok st -> mounted c ->
  hovered (pointer st c' ev) c = if decide (c = c') then ev_value ev else hovered st c.
Proof.
  unfold flags_ok. intros Hl Hm.
  destruct (decide (c = c')) as [<-|Hne].
  - destruct c as [i| | |]; cbn [pointer hovered]; try apply dispatch_value.
    cbn [mounted] in Hm. destruct (nth_error projectsData i) eqn:E;
      [|apply nth_error_None in E; lia].
    cbn [projectHovered]. rewrite nth_lookup, list_lookup_insert_eq by lia.
    apply dispatch_value.
  - destruct c' as [j| | |], c as [i| | |]; cbn [pointer hovered]; try reflexivity;
      try (exfalso; congruence).
    all: destruct (nth_error projectsData j); try reflexivity.
    cbn [projectHovered]. rewrite !nth_lookup, list_lookup_insert_ne by congruence.
    reflexivity.
Qed.

(** One step, on every branch: a pointer event only changes the page
    state, a click only the browser, and neither throws nor breaks [wf]. *)
Lemma page_step_spec table year st b e :
  wf b ->
  exists st' b', page_step table year st b e = Ok (st', b') /\ wf b' /\
    match e with
    | PointerOn c ev => st' = pointer st c ev /\ b' = b
    | ClickOn _ => st' = st
    end.
Proof.
  intros Hwf. destruct e as [c ev|k]; cbn [page_step]; [now exists (pointer st c ev), b|].
  destruct (nth_error (chains [] (Page year st)) k) as [path|]; [|now exists st, b].
  destruct (run_actions_safe table (click_actions path) b Hwf) as [b' [E W]].
  exists st, b'. rewrite E. auto.
Qed.

(** ** Runs *)

Definition hover_of (acc : option Cards.PointerEvent) : bool :=
  match acc with Some ev => ev_value ev | None => false end.

Lemma hovered_step st c e acc :
  flags_ok st -> mounted c -> hovered st c = hover_of acc ->
  hovered (match e with PointerOn c' ev => pointer st c' ev | ClickOn _ => st end) c =
  hover_of (last_step c acc e).
Proof.
  intros Hl Hm Hc. destruct e as [c' ev|k]; cbn [last_step]; [|exact Hc].
  rewrite (hovered_pointer st c c' ev Hl Hm). now destruct (decide (c = c')).
Qed.

Lemma page_run_gen table year evs : forall st b (acc : CardRef -> option Cards.PointerEvent),
  wf b -> flags_ok st -> (forall c, mounted c -> hovered st c = hover_of (acc c)) ->
  exists st' b', page_run table year st b evs = Ok (st', b') /\ wf b' /\ flags_ok st' /\
    forall c, mounted c -> hovered st' c = hover_of (fold_left (last_step c) evs (acc c)).
Proof.
  induction evs as [|e evs IH]; intros st b acc Hwf Hl Hh; [now exists st, b|].
  destruct (page_step_spec table year st b e Hwf) as [st1 [b1 [E1 [W1 H1]]]].
  assert (Hst : st1 = match e with PointerOn c' ev => pointer st c' ev | ClickOn _ => st end)
    by (destruct e; tauto).
  assert (Hl1 : flags_ok st1) by (subst st1; destruct e; auto using pointer_flags_ok).
  destruct (IH st1 b1 (fun c => last_step c (acc c) e) W1 Hl1) as [st2 [b2 [E2 R]]].
  { intros c Hm. subst st1. apply hovered_step; auto. }
  exists st2, b2. cbn [page_run]. rewrite E1. exact (conj E2 R).
Qed.

Lemma initial_hovered c : hovered initialState c = false.
Proof. destruct c as [[|[|[|[|[]]]]]| | |]; reflexivity. Qed.

(** C4: Any interleaving of pointer events and clicks, from the page as
    mounted: the page never throws, the browser state stays well formed,
    and every mounted card is hovered exactly when the last pointer event
    it received was [onMouseEnter] (events on other cards and clicks do
    not change it). *)
Theorem page_run_hover table year b evs :
  wf b ->
  exists st b', page_run table year initialState b evs = Ok (st, b') /\ wf b' /\
    forall c, mounted c ->
      hovered st c = match last_pointer c evs with Some Cards.MouseEnter => true | _ => false end.
Proof.
  intros Hwf.
  destruct (page_run_gen table year evs initialState b (fun _ => None) Hwf) as [st [b' [E [W [_ H]]]]];
    [reflexivity | intros c _; apply initial_hovered |].
  exists st, b'. split; [exact E|]. split; [exact W|]. intros c Hm.
  rewrite (H c Hm). unfold last_pointer. now destruct (fold_left _ evs None) as [[]|].
Qed.

(** A click on the [k]-th element changes the observable view by the
    contracts of its actions, in order, and leaves the cards alone. *)
Lemma page_click_view table year st b k :
  wf b ->
  exists b', page_step table year st b (ClickOn k) = Ok (st, b') /\ wf b' /\
    view b' = fold_left (fun v e => apply_effect e v)
                (click_effects (Regex.isMobile table (userAgent b)) year st k) (view b).
Proof.
  intros Hwf. unfold page_step, click_effects.
  destruct (nth_error _ k) as [path|]; [|now exists b].
  destruct (run_actions_view table (click_actions path) b Hwf) as [b' [E [W V]]].
  exists b'. rewrite E. auto.
Qed.

(** The effects of each element's click, for both answers of the
    user-agent test: at most one, from [page_effects]; and each of these is
    the whole effect of some element's click. *)
Lemma click_effects_cases mobile year st :
  Forall (fun l => List.length l <= 1 /\ Forall (fun e => e ∈ page_effects mobile) l)
    (map (fun path => map (action_effect mobile) (click_actions path)) (chains [] (Page year st))) /\
  Forall (fun e => In [e] (map (fun path => map (action_effect mobile) (click_actions path))
                             (chains [] (Page year st))))
    (page_effects mobile).
Proof.
  rewrite <- (map_map click_actions (map (action_effect mobile))), click_actions_state_independent.
  setoid_rewrite <- list_elem_of_In.
  destruct mobile; apply (bool_decide_unpack _); vm_compute; reflexivity.
Qed.

(** C8: What a click does, end to end: a click on any element of the
    rendered page, in every hover state and for every year, succeeds,
    keeps the browser well formed and the cards' state, and either
    changes nothing the user observes or performs exactly one effect of
    [page_effects] (a literal link, mail address or file); and every
    effect of that list is what clicking some element does. *)
Theorem page_click_effects table year st b :
  wf b ->
  (forall k, exists b', page_step table year st b (ClickOn k) = Ok (st, b') /\ wf b' /\
     (view b' = view b \/
      exists e, e ∈ page_effects (Regex.isMobile table (userAgent b)) /\
                view b' = apply_effect e (view b))) /\
  Forall (fun e => exists k b', page_step table year st b (ClickOn k) = Ok (st, b') /\
                                view b' = apply_effect e (view b))
    (page_effects (Regex.isMobile table (userAgent b))).
Proof.
  intros Hwf. set (m := Regex.isMobile table (userAgent b)).
  destruct (click_effects_cases m year st) as [Hall Hsurj]. split.
  - intros k. destruct (page_click_view table year st b k Hwf) as [b' [E [W V]]].
    exists b'. split; [exact E|]. split; [exact W|]. rewrite V. fold m. unfold click_effects.
    destruct (nth_error (chains [] (Page year st)) k) as [path|] eqn:Hk; [|now left].
    rewrite List.Forall_forall in Hall.
    destruct (Hall _ (in_map _ _ _ (nth_error_In _ _ Hk))) as [Hlen Hin].
    destruct (map (action_effect m) (click_actions path)) as [|e [|e' l]];
      [now left | | cbn in Hlen; lia].
    right. exists e. split; [now inv Hin | reflexivity].
  - eapply List.Forall_impl; [|exact Hsurj]. intros e He.
    apply In_nth_error in He as [k Hk]. rewrite nth_error_map in Hk.
    destruct (nth_error (chains [] (Page year st)) k) as [path|] eqn:Hp; [|discriminate].
    injection Hk as Hk. exists k.
    destruct (page_click_view table year st b k Hwf) as [b' [E [_ V]]].
    exists b'. split; [exact E|]. rewrite V. fold m. unfold click_effects. now rewrite Hp, Hk.
Qed.

(** ** The footer's year *)

Lemma uint_of_chars_digit_char d : uint_of_chars (digit_char d) = Some d.
Proof. induction d; cbn [digit_char uint_of_chars]; rewrite ?IHd; reflexivity. Qed.

Lemma Number_parse_digits d :
  Number_parse (digit_char d) = option_map (fun d => Z.of_int (Decimal.Pos d)) (uint_of_chars (digit_char d)).
Proof. destruct d; reflexivity. Qed.

(** C23: The footer reads [(c) <year> Shaik Mohamed Fahad. All rights
    reserved.] followed by the credit line, and the year is printed in
    decimal so that a reader parses it back to the year. *)
Theorem footer_year year :
  texts (footer year) =
    [[169; 32]%Z; Number_toString year; js " Shaik Mohamed Fahad. All rights reserved.";
     js "Developed and maintained by "; js "i_am_smf_.py"; js " "; js "using"; js " "; js "v0.dev"] /\
  Number_parse (Number_toString year) = Some year.
Proof.
  split; [reflexivity|]. rewrite <- (DecimalZ.of_to year) at 2. unfold Number_toString.
  destruct (Z.to_int year) as [d|d].
  - now rewrite Number_parse_digits, uint_of_chars_digit_char.
  - change (js "-" ++ digit_char d) with (45%Z :: digit_char d). cbn.
    now rewrite uint_of_chars_digit_char.
Qed.

(** ** Witnesses *)

Lemma page_click_effects_witness :
  wf (sample_browser Handlers.windows_ua true) /\
  (forall k, exists b', page_step Regex.no_table 2025 initialState
                          (sample_browser Handlers.windows_ua true) (ClickOn k) = Ok (initialState, b') /\
     wf b' /\
     (view b' = view (sample_browser Handlers.windows_ua true) \/
      exists e, e ∈ page_effects (Regex.isMobile Regex.no_table Handlers.windows_ua) /\
                view b' = apply_effect e (view (sample_browser Handlers.windows_ua true)))) /\
  Forall (fun e => exists k b', page_step Regex.no_table 2025 initialState
                                  (sample_browser Handlers.windows_ua true) (ClickOn k) =
                                  Ok (initialState, b') /\
                                view b' = apply_effect e (view (sample_browser Handlers.windows_ua true)))
    (page_effects (Regex.isMobile Regex.no_table Handlers.windows_ua)).
Proof.
  split; [apply sample_browser_wf|].
  apply (page_click_effects Regex.no_table 2025 initialState (sample_browser Handlers.windows_ua true)).
  apply sample_browser_wf.
Defined.

(** Hover the second project card, click the WhatsApp button (the last
    element of the page), then enter and leave the certificates card. *)
Definition sample_events : list UIEvent :=
  [PointerOn (ProjectAt 1) Cards.MouseEnter; ClickOn 155;
   PointerOn CertificatesRef Cards.MouseEnter; PointerOn CertificatesRef Cards.MouseLeave].

Lemma page_run_hover_witness :
  wf (sample_browser Handlers.windows_ua true) /\
  exists st b', page_run Regex.no_table 2025 initialState (sample_browser Handlers.windows_ua true)
                  sample_events = Ok (st, b') /\ wf b' /\
    forall c, mounted c ->
      hovered st c = match last_pointer c sample_events with
                     | Some Cards.MouseEnter => true | _ => false end.
Proof.
  split; [apply sample_browser_wf|]. apply page_run_hover. apply sample_browser_wf.
Defined.

End Page.
